(** * snorkel.py: TrainingSet, Learner and PipelinedLearner

    A shallow embedding of [snorkel/snorkel.py].  The Python objects that the
    file only calls into (the featurizer, the noise-aware models, the scorer and
    the plotting routine) are collaborators whose behaviour is a parameter of the
    development; every call to one of them is recorded in a trace, so that the
    statements below can speak about which calls were made, in which order and
    with which arguments. *)

From Stdlib Require Import ZArith String.
From stdpp Require Import base option list gmap.

Local Open Scope Z_scope.
Local Open Scope nat_scope.

(** ** Python results and exceptions *)

Inductive exn :=
| AttributeError   (* attribute access on None, or a missing attribute *)
| TypeError
| ValueError
| IndexError
| ExternalError.   (* raised inside a collaborator *)

Inductive result (A : Type) :=
| Ok (a : A)
| Raise (e : exn).
Arguments Ok {A} a.
Arguments Raise {A} e.

(** A computation over a state [St] that may raise.  The state reached when the
    exception was raised is kept: Python does not roll back the assignments that
    were executed before a [raise]. *)
Definition Py (St A : Type) : Type := St → result A * St.

Definition ret {St A} (a : A) : Py St A := λ s, (Ok a, s).
Definition raise {St A} (e : exn) : Py St A := λ s, (Raise e, s).
Definition bind {St A B} (m : Py St A) (k : A → Py St B) : Py St B :=
  λ s, match m s with
       | (Ok a, s') => k a s'
       | (Raise e, s') => (Raise e, s')
       end.
Definition gets {St A} (f : St → A) : Py St A := λ s, (Ok (f s), s).
Definition modify {St} (f : St → St) : Py St unit := λ s, (Ok tt, f s).
(** An already evaluated result, e.g. of a pure operation that may raise. *)
Definition lift_result {St A} (r : result A) : Py St A := λ s, (r, s).

Notation "x <- m ;; k" := (bind m (λ x, k))
  (at level 100, m at next level, right associativity,
   format "'[v' x  <-  m  ;;  '/' k ']'").
Notation "m ;;; k" := (bind m (λ _, k))
  (at level 100, right associativity, format "'[v' m  ;;;  '/' k ']'").

(** [for i, a in enumerate(l): acc = body i a acc], starting the count at [i]. *)
Fixpoint for_enumerate {St A B} (body : nat → A → B → Py St B)
    (i : nat) (l : list A) (acc : B) : Py St B :=
  match l with
  | [] => ret acc
  | a :: l' => acc' <- body i a acc ;; for_enumerate body (S i) l' acc'
  end.

(** ** Sparse matrices (scipy.sparse) *)

Inductive layout := LIL | CSR | CSC | COO.

Inductive dtype := Bool8 | Int8 | Int16 | Int32 | Int64 | Float32 | Float64.

Global Instance layout_eq_dec : EqDecision layout.
Proof. solve_decision. Defined.
Global Instance dtype_eq_dec : EqDecision dtype.
Proof. solve_decision. Defined.

Record spmatrix (R : Type) := SpMatrix {
  fmt : layout;            (* storage layout *)
  dt : dtype;              (* element type *)
  shape : nat * nat;       (* (rows, columns) *)
  rows : list (list R)     (* the entries, row by row, zeros included *)
}.
Arguments SpMatrix {R} _ _ _ _.
Arguments fmt {R} _.
Arguments dt {R} _.
Arguments shape {R} _.
Arguments rows {R} _.

(** [X[i, j]], when (i, j) is inside the stored rows. *)
Definition entry {R} (X : spmatrix R) (i j : nat) : option R :=
  row ← rows X !! i; row !! j.

(** [X.tocsr()] and [X.tocsc()]: the same matrix in another layout. *)
Definition tocsr {R} (X : spmatrix R) : spmatrix R :=
  SpMatrix CSR (dt X) (shape X) (rows X).
Definition tocsc {R} (X : spmatrix R) : spmatrix R :=
  SpMatrix CSC (dt X) (shape X) (rows X).

(** Object locations in the Python heap. *)
Abbreviation loc := nat (only parsing).

(** ** The collaborators

    Everything [snorkel.py] imports and calls but does not define:
    candidates, numpy's float64 numbers, scipy's dtype promotion, the
    featurizer ([features.Featurizer]), the noise-aware models
    ([learning.LogReg] and whatever is passed as [model]), and the reporting
    routines of [learning_utils].  A collaborator that is an object has a state,
    which a method call may change and which survives an exception. *)
Class Collaborators := {
  Candidate : Type;
  Candidate_eq_dec :: EqDecision Candidate;
  (* numpy float64 *)
  Scalar : Type;
  float_of_int : Z → Scalar;
  fmul : Scalar → Scalar → Scalar;
  fmul_one_r : ∀ x, fmul x (float_of_int 1) = x;
  (* scipy.sparse.sputils.upcast *)
  upcast : dtype → dtype → dtype;
  (* **model_hyperparams: keyword arguments other than [w0] and
     [training_marginals] *)
  Hyper : Type;
  (* features.Featurizer *)
  Featurizer : Type;
  fz_fit_transform :
    Featurizer → list Candidate → result (spmatrix Scalar) * Featurizer;
  fz_transform :
    Featurizer → list Candidate → result (spmatrix Scalar) * Featurizer;
  (* noise-aware models *)
  Model : Type;
  LogReg : Model;                       (* the object built by [LogReg()] *)
  TrainRet : Type;                      (* what [train] returns *)
  Preds : Type;                         (* what [predict] returns *)
  model_train :
    Model → spmatrix Scalar → option (list Scalar) → list Scalar → Hyper →
    result TrainRet * Model;
  model_marginals :
    Model → option (spmatrix Scalar) → result (list Scalar) * Model;
  model_predict : Model → option (spmatrix Scalar) → result Preds * Model;
  model_w : Model → option (list Scalar);   (* the attribute [w], once set *)
  (* learning_utils *)
  test_scores : Preds → list Z → result unit;
  calibration_plots : list Scalar → list Scalar → list Z → result unit
}.

Section Model.
Context {C : Collaborators}.

Abbreviation matrix := (spmatrix Scalar).

(** *** numpy and scipy.sparse *)

Definition np_ones (n : nat) : list Scalar := replicate n (float_of_int 1).
(** [x * v] for a number [x] and an array [v]. *)
Definition np_scale (x : Scalar) (v : list Scalar) : list Scalar := fmul x <$> v.
Definition np_concatenate (vs : list (list Scalar)) : list Scalar := concat vs.

(** [sparse.lil_matrix((n, m))]: an all-zero matrix; with no [dtype] argument
    scipy takes float64. *)
Definition lil_matrix (shp : nat * nat) : matrix :=
  SpMatrix LIL Float64 shp (replicate shp.1 (replicate shp.2 (float_of_int 0))).

(** [X[i, j] = v] for a Python integer [v]: the value is stored as a number of
    the matrix's element type; an index outside the shape raises. *)
Definition lil_setitem (X : matrix) (i j : nat) (v : Z) : result matrix :=
  if decide (i < (shape X).1 ∧ j < (shape X).2) then
    Ok (SpMatrix (fmt X) (dt X) (shape X)
          (alter (λ row, <[j := float_of_int v]> row) i (rows X)))
  else Raise IndexError.

(** [sparse.hstack([A, B], format='csc')], which is [bmat([[A, B]])].  [bmat]
    goes through the blocks from left to right and takes the height of the
    block row from the first block that has any row: the height is kept as 0
    until then, and a later block must have the height recorded.  So blocks
    with the same number of rows are put side by side; when [A] has no row,
    [B] decides the height and its rows come after [A]'s columns of zeros; and
    when [A] has rows and [B] another number of them, [bmat] raises.  For a
    block [None] the behaviour has changed between releases of scipy (refused
    for its unknown width, later skipped); it is refused here. *)
Definition hstack_csc (A : matrix) (B : option matrix) : result matrix :=
  match B with
  | None => Raise ValueError
  | Some B =>
      if decide ((shape A).1 = (shape B).1) then
        Ok (SpMatrix CSC (upcast (dt A) (dt B))
              ((shape A).1, (shape A).2 + (shape B).2)
              (zip_with app (rows A) (rows B)))
      else if decide ((shape A).1 = 0) then
        Ok (SpMatrix CSC (upcast (dt A) (dt B))
              ((shape B).1, (shape A).2 + (shape B).2)
              ((λ row, replicate (shape A).2 (float_of_int 0) ++ row)
                 <$> rows B))
      else Raise ValueError
  end.

(** [a != b] on two one-dimensional integer arrays, to be consumed by the
    builtin [any].  Arrays of the same length are compared element by element,
    an array of length one is broadcast; with other lengths numpy either gives
    a plain boolean, on which [any] raises [TypeError], or raises itself. *)
Definition np_ne (a b : list Z) : result (list bool) :=
  if decide (length a = length b) then
    Ok (zip_with (λ x y, negb (x =? y)%Z) a b)
  else match a, b with
       | [x], _ => Ok ((λ y, negb (x =? y)%Z) <$> b)
       | _, [y] => Ok ((λ x, negb (x =? y)%Z) <$> a)
       | _, _ => Raise TypeError
       end.
Definition py_any (bs : list bool) : bool := existsb id bs.

(** *** The heap and the trace *)

Definition LF : Type := Candidate → Z.

Inductive event :=
| EvPrint (s : string)
| EvLF (i j : nat)                         (* [lfs[j](candidates[i])] *)
| EvFitTransform (fz : loc) (cs : list Candidate)
| EvTransform (fz : loc) (cs : list Candidate)
| EvTrain (mdl : loc) (X : matrix) (training_marginals : option (list Scalar))
    (w0 : list Scalar) (hp : Hyper)
| EvMarginals (mdl : loc) (X : option matrix)
| EvPredict (mdl : loc) (X : option matrix)
| EvTestScores (p : Preds) (gold : list Z)
| EvCalibrationPlots (train_marginals test_marginals : list Scalar)
    (gold : list Z).

Record World := MkWorld {
  cand_lists : gmap loc (list Candidate);   (* Python lists of candidates *)
  arrays : gmap loc (list Z);               (* numpy arrays of gold labels *)
  featurizers : gmap loc Featurizer;
  models : gmap loc Model;
  trace : list event                        (* oldest event first *)
}.

Definition log (ev : event) (σ : World) : World :=
  MkWorld (cand_lists σ) (arrays σ) (featurizers σ) (models σ) (trace σ ++ [ev]).
Definition store_featurizer (l : loc) (o : Featurizer) (σ : World) : World :=
  MkWorld (cand_lists σ) (arrays σ) (<[l := o]> (featurizers σ)) (models σ)
    (trace σ).
Definition store_model (l : loc) (o : Model) (σ : World) : World :=
  MkWorld (cand_lists σ) (arrays σ) (featurizers σ) (<[l := o]> (models σ))
    (trace σ).

Definition print (s : string) : Py World unit := modify (log (EvPrint s)).

(** Reading a list of candidates or an array through its reference. *)
Definition deref_cands (l : loc) : Py World (list Candidate) :=
  λ σ, match cand_lists σ !! l with
       | Some cs => (Ok cs, σ)
       | None => (Raise TypeError, σ)
       end.
Definition deref_array (l : loc) : Py World (list Z) :=
  λ σ, match arrays σ !! l with
       | Some a => (Ok a, σ)
       | None => (Raise TypeError, σ)
       end.

Definition call_lf (i j : nat) (lf : LF) (c : Candidate) : Py World Z :=
  modify (log (EvLF i j)) ;;; ret (lf c).

(** A method call on a heap object: the call is logged, the object's new state
    is stored, and the result (or the exception) is handed back. *)
Definition call_featurizer
    (meth : Featurizer → list Candidate → result matrix * Featurizer)
    (ev : loc → list Candidate → event)
    (fz : loc) (cs : list Candidate) : Py World matrix :=
  λ σ, match featurizers σ !! fz with
       | None => (Raise AttributeError, σ)
       | Some o =>
           let '(r, o') := meth o cs in
           (r, store_featurizer fz o' (log (ev fz cs) σ))
       end.

Definition call_model {A} (meth : Model → result A * Model) (ev : loc → event)
    (mdl : option loc) : Py World A :=
  λ σ, match mdl with
       | None => (Raise AttributeError, σ)       (* [None.train] and the like *)
       | Some l =>
           match models σ !! l with
           | None => (Raise AttributeError, σ)
           | Some o =>
               let '(r, o') := meth o in
               (r, store_model l o' (log (ev l) σ))
           end
       end.

Definition call_train (mdl : option loc) (X : matrix)
    (training_marginals : option (list Scalar)) (w0 : list Scalar) (hp : Hyper)
    : Py World TrainRet :=
  call_model (λ o, model_train o X training_marginals w0 hp)
    (λ l, EvTrain l X training_marginals w0 hp) mdl.
Definition call_marginals (mdl : option loc) (X : option matrix)
    : Py World (list Scalar) :=
  call_model (λ o, model_marginals o X) (λ l, EvMarginals l X) mdl.
Definition call_predict (mdl : option loc) (X : option matrix) : Py World Preds :=
  call_model (λ o, model_predict o X) (λ l, EvPredict l X) mdl.

(** Reading the attribute [w] of a model. *)
Definition read_w (mdl : option loc) : Py World (list Scalar) :=
  λ σ, match mdl with
       | None => (Raise AttributeError, σ)
       | Some l =>
           match models σ !! l ≫= model_w with
           | Some w => (Ok w, σ)
           | None => (Raise AttributeError, σ)
           end
       end.

(** [LogReg()]: a new model object at an unused location. *)
Definition new_LogReg : Py World loc :=
  λ σ, let l := fresh (dom (models σ)) in (Ok l, store_model l LogReg σ).

Definition call_test_scores (p : Preds) (gold : list Z) : Py World unit :=
  modify (log (EvTestScores p gold)) ;;; lift_result (test_scores p gold).
Definition call_calibration_plots (a b : list Scalar) (gold : list Z)
    : Py World unit :=
  modify (log (EvCalibrationPlots a b gold)) ;;;
  lift_result (calibration_plots a b gold).

(** ** class TrainingSet *)

Record TrainingSet := MkTrainingSet {
  training_candidates : loc;
  featurizer : option loc;        (* [None] when no featurizer was given *)
  lfs : list LF;
  ts_L : matrix;                  (* the attribute [L] *)
  ts_F : option matrix            (* the attribute [F]; may be [None] *)
}.

(** [TrainingSet._apply_lfs].  Of [self] it reads [self.lfs] only. *)
Definition TrainingSet_apply_lfs (self_lfs : list LF) (candidates : loc)
    : Py World matrix :=
  cs <- deref_cands candidates ;;
  X <- for_enumerate (λ i c X,
         for_enumerate (λ j lf X,
           v <- call_lf i j lf c ;;
           lift_result (lil_setitem X i j v)) 0 self_lfs X)
       0 cs (lil_matrix (length cs, length self_lfs)) ;;
  ret (tocsr X).

(** [TrainingSet.transform].  Of [self] it reads [self.lfs] and
    [self.featurizer], which [__init__] assigns before it calls [transform]. *)
Definition TrainingSet_transform (self_lfs : list LF)
    (self_featurizer : option loc) (candidates : loc) (fit : bool)
    : Py World (matrix * option matrix) :=
  print "Applying LFs..." ;;;
  L <- TrainingSet_apply_lfs self_lfs candidates ;;
  F <- match self_featurizer with
       | None => ret None
       | Some fz =>
           print "Featurizing..." ;;;
           cs <- deref_cands candidates ;;
           F <- (if fit then call_featurizer fz_fit_transform EvFitTransform fz cs
                 else call_featurizer fz_transform EvTransform fz cs) ;;
           ret (Some F)
       end ;;
  ret (L, F).

(** [TrainingSet.__init__]. *)
Definition TrainingSet_init (training_candidates : loc) (lfs : list LF)
    (featurizer : option loc) : Py World TrainingSet :=
  LF <- TrainingSet_transform lfs featurizer training_candidates true ;;
  ret (MkTrainingSet training_candidates featurizer lfs LF.1 LF.2).

(** [self.transform(candidates, fit)] on a constructed training set. *)
Definition transform (self : TrainingSet) (candidates : loc) (fit : bool)
    : Py World (matrix * option matrix) :=
  TrainingSet_transform (lfs self) (featurizer self) candidates fit.

(** ** class Learner and class PipelinedLearner(Learner) *)

Inductive learner_class := JointLearner | PipelinedLearner.

Record Learner := MkLearner {
  cls : learner_class;             (* the object's class, for method dispatch *)
  training_set : TrainingSet;
  model : option loc;              (* [model=None] by default *)
  L_train : matrix;
  n_train : nat;
  lr_m : nat;                      (* the attribute [m] *)
  F_train : matrix;
  lr_f : nat;                      (* the attribute [f] *)
  X_train : option matrix;
  test_candidates : option loc;
  gold_labels : option loc;
  X_test : option matrix;
  training_model : option loc;     (* assigned by [PipelinedLearner.train] *)
  lr_w : option TrainRet           (* the attribute [w], idem *)
}.

Definition set_X_train (v : option matrix) (o : Learner) : Learner :=
  MkLearner (cls o) (training_set o) (model o) (L_train o) (n_train o) (lr_m o)
    (F_train o) (lr_f o) v (test_candidates o) (gold_labels o) (X_test o)
    (training_model o) (lr_w o).
Definition set_test_candidates (v : option loc) (o : Learner) : Learner :=
  MkLearner (cls o) (training_set o) (model o) (L_train o) (n_train o) (lr_m o)
    (F_train o) (lr_f o) (X_train o) v (gold_labels o) (X_test o)
    (training_model o) (lr_w o).
Definition set_gold_labels (v : option loc) (o : Learner) : Learner :=
  MkLearner (cls o) (training_set o) (model o) (L_train o) (n_train o) (lr_m o)
    (F_train o) (lr_f o) (X_train o) (test_candidates o) v (X_test o)
    (training_model o) (lr_w o).
Definition set_X_test (v : option matrix) (o : Learner) : Learner :=
  MkLearner (cls o) (training_set o) (model o) (L_train o) (n_train o) (lr_m o)
    (F_train o) (lr_f o) (X_train o) (test_candidates o) (gold_labels o) v
    (training_model o) (lr_w o).
Definition set_training_model (v : option loc) (o : Learner) : Learner :=
  MkLearner (cls o) (training_set o) (model o) (L_train o) (n_train o) (lr_m o)
    (F_train o) (lr_f o) (X_train o) (test_candidates o) (gold_labels o)
    (X_test o) v (lr_w o).
Definition set_w (v : option TrainRet) (o : Learner) : Learner :=
  MkLearner (cls o) (training_set o) (model o) (L_train o) (n_train o) (lr_m o)
    (F_train o) (lr_f o) (X_train o) (test_candidates o) (gold_labels o)
    (X_test o) (training_model o) v.

(** Methods of a learner run on the heap together with the object [self]. *)
Definition LState : Type := World * Learner.
Definition in_world {A} (m : Py World A) : Py LState A :=
  λ s, let '(r, σ') := m s.1 in (r, (σ', s.2)).
Definition get_self : Py LState Learner := gets snd.
Definition assign (upd : Learner → Learner) : Py LState unit :=
  modify (λ s, (s.1, upd s.2)).

(** [Learner.__init__], inherited by [PipelinedLearner].  It touches nothing
    but the object under construction, which is dropped when it raises. *)
Definition Learner_init (c : learner_class) (training_set : TrainingSet)
    (model : option loc) : result Learner :=
  let L_train := ts_L training_set in
  let '(n_train, m) := shape L_train in
  match ts_F training_set with
  | None => Raise AttributeError                 (* [None.shape] *)
  | Some F_train =>
      Ok (MkLearner c training_set model L_train n_train m F_train
            (shape F_train).2 None None None None None None)
  end.

(** [Learner._set_model_X] and its override [PipelinedLearner._set_model_X]. *)
Definition Learner_set_model_X (L : matrix) (F : option matrix) : result matrix :=
  hstack_csc L F.
Definition PipelinedLearner_set_model_X (L : matrix) (F : option matrix)
    : result matrix :=
  match F with
  | None => Raise AttributeError                 (* [None.tocsc] *)
  | Some F => Ok (tocsc F)
  end.
(** [self._set_model_X(L, F)]. *)
Definition set_model_X (c : learner_class) : matrix → option matrix → result matrix :=
  match c with
  | JointLearner => Learner_set_model_X
  | PipelinedLearner => PipelinedLearner_set_model_X
  end.

(** [Learner.train(lf_w0, feat_w0, **model_hyperparams)]. *)
Definition Learner_train (lf_w0 feat_w0 : Scalar) (model_hyperparams : Hyper)
    : Py LState unit :=
  self <- get_self ;;
  let w0 := np_concatenate [np_scale lf_w0 (np_ones (lr_m self));
                            np_scale feat_w0 (np_ones (lr_f self))] in
  X <- lift_result
         (set_model_X (cls self) (L_train self) (Some (F_train self))) ;;
  assign (set_X_train (Some X)) ;;;
  self <- get_self ;;
  _ <- in_world (call_train (model self) X None w0 model_hyperparams) ;;
  ret tt.

(** The guard of the cache in [Learner.test]:
    [self.X_test is None or test_candidates != self.test_candidates
     or any(gold_labels != self.gold_labels)], evaluated left to right. *)
Definition cache_miss (test_candidates' gold_labels' : loc) : Py LState bool :=
  self <- get_self ;;
  match X_test self with
  | None => ret true
  | Some _ =>
      cands_differ <-
        match test_candidates self with
        | None => ret true
        | Some cached =>
            cs <- in_world (deref_cands test_candidates') ;;
            cs0 <- in_world (deref_cands cached) ;;
            ret (bool_decide (cs ≠ cs0))
        end ;;
      if cands_differ : bool then ret true
      else
        match gold_labels self with
        | None => raise TypeError
        | Some cached =>
            g <- in_world (deref_array gold_labels') ;;
            g0 <- in_world (deref_array cached) ;;
            ne <- lift_result (np_ne g g0) ;;
            ret (py_any ne)
        end
  end.

(** The statements of [Learner.test] after the cached block. *)
Definition score_and_plot (gold_labels' : loc) (show_plots : bool)
    : Py LState unit :=
  self <- get_self ;;
  p <- in_world (call_predict (model self) (X_test self)) ;;
  g <- in_world (deref_array gold_labels') ;;
  in_world (call_test_scores p g) ;;;
  if show_plots then
    a <- in_world (call_marginals (model self) (X_train self)) ;;
    b <- in_world (call_marginals (model self) (X_test self)) ;;
    g <- in_world (deref_array gold_labels') ;;
    in_world (call_calibration_plots a b g)
  else ret tt.

(** The cached block of [Learner.test]: the body of its [if]. *)
Definition refresh_cache (test_candidates' gold_labels' : loc) : Py LState unit :=
  assign (set_test_candidates (Some test_candidates')) ;;;
  assign (set_gold_labels (Some gold_labels')) ;;;
  self <- get_self ;;
  LF <- in_world (transform (training_set self) test_candidates' false) ;;
  X <- lift_result (set_model_X (cls self) LF.1 LF.2) ;;
  assign (set_X_test (Some X)).

(** [Learner.test(test_candidates, gold_labels, show_plots)], inherited by
    [PipelinedLearner]. *)
Definition Learner_test (test_candidates' gold_labels' : loc)
    (show_plots : bool) : Py LState unit :=
  miss <- cache_miss test_candidates' gold_labels' ;;
  (if miss : bool then refresh_cache test_candidates' gold_labels'
   else ret tt) ;;;
  score_and_plot gold_labels' show_plots.

(** [Learner.lf_weights] and [Learner.feat_weights]. *)
Definition Learner_lf_weights : Py LState (list Scalar) :=
  self <- get_self ;;
  w <- in_world (read_w (model self)) ;;
  ret (take (lr_m self) w).
Definition Learner_feat_weights : Py LState (list Scalar) :=
  self <- get_self ;;
  w <- in_world (read_w (model self)) ;;
  ret (drop (lr_m self) w).

(** [PipelinedLearner.train(feat_w0, lf_w0, **model_hyperparams)]. *)
Definition PipelinedLearner_train (feat_w0 lf_w0 : Scalar)
    (model_hyperparams : Hyper) : Py LState unit :=
  self <- get_self ;;
  let w0_1 := np_scale lf_w0 (np_ones (lr_m self)) in
  let w0_2 := np_scale feat_w0 (np_ones (lr_f self)) in
  tm <- in_world new_LogReg ;;
  assign (set_training_model (Some tm)) ;;;
  self <- get_self ;;
  _ <- in_world (call_train (training_model self) (L_train self) None w0_1
                   model_hyperparams) ;;
  training_marginals <-
    in_world (call_marginals (training_model self) (Some (L_train self))) ;;
  X <- lift_result
         (set_model_X (cls self) (L_train self) (Some (F_train self))) ;;
  assign (set_X_train (Some X)) ;;;
  self <- get_self ;;
  r <- in_world (call_train (model self) X (Some training_marginals) w0_2
                   model_hyperparams) ;;
  assign (set_w (Some r)).

(** [PipelinedLearner.lf_weights] and [PipelinedLearner.feat_weights]. *)
Definition PipelinedLearner_lf_weights : Py LState (list Scalar) :=
  self <- get_self ;;
  in_world (read_w (training_model self)).
Definition PipelinedLearner_feat_weights : Py LState (list Scalar) :=
  self <- get_self ;;
  in_world (read_w (model self)).

(** ** Vocabulary of the statements *)

(** The label matrix in closed form: row [i] lists [lf(candidates[i])] for each
    labeling function in order, as float64 numbers in CSR layout. *)
Definition label_matrix (lfs : list LF) (cs : list Candidate) : matrix :=
  SpMatrix CSR Float64 (length cs, length lfs)
    ((λ c, (λ lf : LF, float_of_int (lf c)) <$> lfs) <$> cs).

(** [sparse.hstack([A, B], format='csc')] in closed form. *)
Definition hstack_of (A B : matrix) : matrix :=
  SpMatrix CSC (upcast (dt A) (dt B))
    ((shape A).1, (shape A).2 + (shape B).2)
    (zip_with app (rows A) (rows B)).

(** Reading [o.w] on a model object. *)
Definition attr_w (o : Model) : result (list Scalar) :=
  match model_w o with
  | Some w => Ok w
  | None => Raise AttributeError
  end.

(** The calls made to fill an [n] by [m] label matrix: row by row, and inside a
    row column by column. *)
Definition lf_calls (n m : nat) : list event :=
  i ← seq 0 n; EvLF i <$> seq 0 m.

Definition log_all (evs : list event) (σ : World) : World :=
  MkWorld (cand_lists σ) (arrays σ) (featurizers σ) (models σ) (trace σ ++ evs).

(** What [TrainingSet.transform] logs before it turns to the featurizer. *)
Definition labelling_events (n m : nat) : list event :=
  EvPrint "Applying LFs..." :: lf_calls n m.

(** Counting calls in a trace.  [TrainingSet.transform] prints its first notice
    once per call, before anything else. *)
Definition is_transform_entry (ev : event) : bool :=
  match ev with
  | EvPrint s => String.eqb s "Applying LFs..."
  | _ => false
  end.
Definition is_predict (ev : event) : bool :=
  match ev with EvPredict _ _ => true | _ => false end.
Definition transform_runs (t : list event) : nat :=
  length (List.filter is_transform_entry t).
Definition predict_runs (t : list event) : nat :=
  length (List.filter is_predict t).

(** The fields of a learner other than the three cache fields. *)
Definition same_outside_cache (a b : Learner) : Prop :=
  cls a = cls b ∧ training_set a = training_set b ∧ model a = model b ∧
  L_train a = L_train b ∧ n_train a = n_train b ∧ lr_m a = lr_m b ∧
  F_train a = F_train b ∧ lr_f a = lr_f b ∧ X_train a = X_train b ∧
  training_model a = training_model b ∧ lr_w a = lr_w b.

(** The candidate lists and label arrays of the heap. *)
Definition same_data (σ σ' : World) : Prop :=
  cand_lists σ = cand_lists σ' ∧ arrays σ = arrays σ'.

(** A step from [σ] to [σ'] that leaves the data alone and does not enter
    [TrainingSet.transform]; the same for a learner state, which moreover keeps
    the learner object as it is. *)
Definition calm (σ σ' : World) : Prop :=
  same_data σ σ' ∧ transform_runs (trace σ') = transform_runs (trace σ).
Definition quiet (s s' : LState) : Prop :=
  s'.2 = s.2 ∧ calm s.1 s'.1.

(** [m] relates every state to the state it ends in, whether or not it
    raises. *)
Definition preserves {St A} (R : relation St) (m : Py St A) : Prop :=
  ∀ s, R s (m s).2.

(** A step that does not call [predict]. *)
Definition steady (σ σ' : World) : Prop :=
  predict_runs (trace σ') = predict_runs (trace σ).

(** A relation on heaps, as a relation on the states of a learner's
    methods. *)
Definition on_world (R : relation World) : relation LState :=
  λ s s', R s.1 s'.1.

(** [m] changes nothing, and its result depends on the state through [view]
    only. *)
Definition reads {St D A} (view : St → D) (m : Py St A) : Prop :=
  ∀ s, (m s).2 = s ∧ ∀ s', view s = view s' → (m s).1 = (m s').1.

(** What the guard of the cache looks at: the data and the learner. *)
Definition cache_view (s : LState)
    : gmap loc (list Candidate) * gmap loc (list Z) * Learner :=
  (cand_lists s.1, arrays s.1, s.2).

(** Two learners that agree outside the cache fields, as a relation on the
    states of a learner's methods. *)
Definition frame (s s' : LState) : Prop := same_outside_cache s.2 s'.2.

(** ** The remaining methods, and further vocabulary *)

(** [self.lf_weights()] and [self.feat_weights()]: the method of the class of
    [self]. *)
Definition lf_weights (c : learner_class) : Py LState (list Scalar) :=
  match c with
  | JointLearner => Learner_lf_weights
  | PipelinedLearner => PipelinedLearner_lf_weights
  end.
Definition feat_weights (c : learner_class) : Py LState (list Scalar) :=
  match c with
  | JointLearner => Learner_feat_weights
  | PipelinedLearner => PipelinedLearner_feat_weights
  end.

(** [Learner.lf_accs], inherited by [PipelinedLearner]; [odds_to_prob] comes
    from the module [learning]. *)
Definition Learner_lf_accs (odds_to_prob : list Scalar → list Scalar)
    : Py LState (list Scalar) :=
  self <- get_self ;;
  w <- lf_weights (cls self) ;;
  ret (odds_to_prob w).

(** [score_and_plot] for a given [self], as a computation on the heap. *)
Definition score_world (self : Learner) (gold_labels' : loc) (show_plots : bool)
    : Py World unit :=
  p <- call_predict (model self) (X_test self) ;;
  g <- deref_array gold_labels' ;;
  call_test_scores p g ;;;
  if show_plots then
    a <- call_marginals (model self) (X_train self) ;;
    b <- call_marginals (model self) (X_test self) ;;
    g <- deref_array gold_labels' ;;
    call_calibration_plots a b g
  else ret tt.

(** The caller of the library owns the candidate lists and the label arrays and
    may change them in place between two calls. *)
Definition set_data (cands : gmap loc (list Candidate))
    (arrs : gmap loc (list Z)) (σ : World) : World :=
  MkWorld cands arrs (featurizers σ) (models σ) (trace σ).

(** Kinds of events. *)
Definition is_fit (ev : event) : bool :=
  match ev with EvFitTransform _ _ => true | _ => false end.
Definition is_train (ev : event) : bool :=
  match ev with EvTrain _ _ _ _ _ => true | _ => false end.

Definition count_events (P : event → bool) (t : list event) : nat :=
  length (List.filter P t).

(** A step that logs no event of kind [P]. *)
Definition keeps (P : event → bool) : relation World :=
  λ σ σ', count_events P (trace σ') = count_events P (trace σ).

(** A relation on heaps that tolerates the events in [okev] and updates of
    the model objects in [okm] and of the featurizer objects in [okf]. *)
Class Framing (R : relation World) (okev : event → Prop)
    (okm okf : loc → Prop) : Prop := {
  framing_preorder :: PreOrder R;
  framing_log : ∀ ev σ, okev ev → R σ (log ev σ);
  framing_model : ∀ (l : loc) o σ, okm l → R σ (store_model l o σ);
  framing_featurizer : ∀ (l : loc) o σ, okf l → R σ (store_featurizer l o σ)
}.

(** Two learners that differ in [X_train] at most. *)
Definition agree_outside_X_train (a b : Learner) : Prop :=
  cls a = cls b ∧ training_set a = training_set b ∧ model a = model b ∧
  L_train a = L_train b ∧ n_train a = n_train b ∧ lr_m a = lr_m b ∧
  F_train a = F_train b ∧ lr_f a = lr_f b ∧
  test_candidates a = test_candidates b ∧ gold_labels a = gold_labels b ∧
  X_test a = X_test b ∧ training_model a = training_model b ∧
  lr_w a = lr_w b.

(** [sparse.hstack([A, B], format='csc')] in closed form when [A] has no
    row: the rows of [B], each after one zero per column of [A]. *)
Definition hstack_under (A B : matrix) : matrix :=
  SpMatrix CSC (upcast (dt A) (dt B))
    ((shape B).1, (shape A).2 + (shape B).2)
    ((λ row, replicate (shape A).2 (float_of_int 0) ++ row) <$> rows B).

(** More kinds of events. *)
Definition is_marginals (ev : event) : bool :=
  match ev with EvMarginals _ _ => true | _ => false end.
Definition is_fz_transform (ev : event) : bool :=
  match ev with EvTransform _ _ => true | _ => false end.
(** A call on a model object other than [mdl], or on a featurizer object
    other than [fzo]. *)
Definition is_other_model (mdl : option loc) (ev : event) : bool :=
  match ev with
  | EvTrain l _ _ _ _ | EvMarginals l _ | EvPredict l _ =>
      negb (bool_decide (mdl = Some l))
  | _ => false
  end.
Definition is_other_featurizer (fzo : option loc) (ev : event) : bool :=
  match ev with
  | EvFitTransform l _ | EvTransform l _ => negb (bool_decide (fzo = Some l))
  | _ => false
  end.

End Model.

(** ** A small concrete setting

    Candidates are numbers, float64 is played by the integers, the featurizer
    counts its calls and emits two columns per candidate, and a model keeps the
    initial weights it was trained from as its weight vector. *)
Module Toy.

Record toy_model := ToyModel { toy_w : option (list Z); toy_trained : nat }.

Definition toy_features (cs : list nat) : spmatrix Z :=
  SpMatrix CSR Int64 (length cs, 2) ((λ c, [Z.of_nat c; 1%Z]) <$> cs).

Definition toy : Collaborators := {|
  Candidate := nat;
  Scalar := Z;
  float_of_int := id;
  fmul := Z.mul;
  fmul_one_r := Z.mul_1_r;
  upcast := λ _ _, Float64;
  Hyper := nat;
  Featurizer := nat;
  fz_fit_transform := λ o cs, (Ok (toy_features cs), S o);
  fz_transform := λ o cs, (Ok (toy_features cs), S o);
  Model := toy_model;
  LogReg := ToyModel None 0;
  TrainRet := unit;
  Preds := list Z;
  model_train := λ o X tm w0 hp, (Ok tt, ToyModel (Some w0) (S (toy_trained o)));
  model_marginals := λ o X, (Ok (from_option (λ X, replicate (shape X).1 0%Z) [] X), o);
  model_predict := λ o X, (Ok (from_option (λ X, replicate (shape X).1 1%Z) [] X), o);
  model_w := toy_w;
  test_scores := λ _ _, Ok tt;
  calibration_plots := λ _ _ _, Ok tt
|}.

(** Two labeling functions over numbered candidates. *)
Definition lf_even : @LF toy := λ c, if Nat.even c then 1%Z else (-1)%Z.
Definition lf_small : @LF toy := λ c, if c <? 11 then 0%Z else 1%Z.
Definition toy_lfs : list (@LF toy) := [lf_even; lf_small].

(** A heap with two candidate lists (at 0 and 1), two gold label arrays (at 0
    and 1, differing in their last element), a featurizer at 0 and a model at
    0. *)
Definition world0 : @World toy :=
  MkWorld {[ 0 := [10; 11; 12]; 1 := [10; 11] ]}
          {[ 0 := [1; -1; 1]%Z; 1 := [1; -1; -1]%Z ]}
          {[ 0 := 0 ]}
          {[ 0 := ToyModel None 0 ]}
          [].

(** The training set over list 0 with the featurizer, and without one. *)
Definition built : result (@TrainingSet toy) * @World toy :=
  TrainingSet_init 0 toy_lfs (Some 0) world0.
Definition built_bare : result (@TrainingSet toy) * @World toy :=
  TrainingSet_init 0 toy_lfs None world0.

Definition ts0 : @TrainingSet toy :=
  MkTrainingSet 0 (Some 0) toy_lfs (label_matrix toy_lfs [10; 11; 12])
    (Some (toy_features [10; 11; 12])).
Definition world1 : @World toy := built.2.

Definition learner0 (c : learner_class) : @Learner toy :=
  MkLearner c ts0 (Some 0) (label_matrix toy_lfs [10; 11; 12]) 3 2
    (toy_features [10; 11; 12]) 2 None None None None None None.

(** The joint learner after [train(lf_w0=5, feat_w0=0)], and after a first
    [test] on candidate list 0 with gold labels 0. *)
Definition trained : @LState toy :=
  (Learner_train (C:=toy) 5%Z 0%Z 7 (world1, learner0 JointLearner)).2.
Definition tested : @LState toy := (Learner_test (C:=toy) 0 0 true trained).2.


End Toy.

(** ** A second setting, with collaborators that can fail

    As the first one, except that the featurizer refuses to fit on an empty
    list and to transform a list that holds candidate 13, and that a model
    refuses to train with hyperparameter 0. *)
Module Picky.
Import Toy.

Definition picky : Collaborators := {|
  Candidate := nat;
  Scalar := Z;
  float_of_int := id;
  fmul := Z.mul;
  fmul_one_r := Z.mul_1_r;
  upcast := λ _ _, Float64;
  Hyper := nat;
  Featurizer := nat;
  fz_fit_transform := λ o cs,
    match cs with
    | [] => (Raise ExternalError, S o)
    | _ => (Ok (toy_features cs), S o)
    end;
  fz_transform := λ o cs,
    if bool_decide (13 ∈ cs) then (Raise ExternalError, S o)
    else (Ok (toy_features cs), S o);
  Model := toy_model;
  LogReg := ToyModel None 0;
  TrainRet := unit;
  Preds := list Z;
  model_train := λ o X tm w0 hp,
    match hp with
    | 0 => (Raise ExternalError, o)
    | _ => (Ok tt, ToyModel (Some w0) (S (toy_trained o)))
    end;
  model_marginals := λ o X, (Ok (from_option (λ X, replicate (shape X).1 0%Z) [] X), o);
  model_predict := λ o X, (Ok (from_option (λ X, replicate (shape X).1 1%Z) [] X), o);
  model_w := toy_w;
  test_scores := λ _ _, Ok tt;
  calibration_plots := λ _ _ _, Ok tt
|}.

Definition pk_lfs : list (@LF picky) := [lf_even; lf_small].

(** Candidate lists at 0 to 3 (the last one empty), label arrays at 0 to 4, a
    fitted featurizer at 0, an untrained model at 0 and a model with a
    one-entry weight vector at 5. *)
Definition pk_world : @World picky :=
  MkWorld {[ 0 := [10; 11; 12]; 1 := [10; 11]; 2 := [13]; 3 := [] ]}
          {[ 0 := [1; -1; 1]%Z; 1 := [1; -1]%Z; 2 := [1]%Z;
             3 := [1; 1; 1]%Z; 4 := [] ]}
          {[ 0 := 1 ]}
          {[ 0 := ToyModel None 0; 5 := ToyModel (Some [7]%Z) 1 ]}
          [].

Definition pk_L : spmatrix Z := label_matrix (C:=picky) pk_lfs [10; 11; 12].

Definition pk_ts : @TrainingSet picky :=
  MkTrainingSet 0 (Some 0) pk_lfs pk_L (Some (toy_features [10; 11; 12])).

Definition pk_learner (c : learner_class) (mdl : option nat) : @Learner picky :=
  MkLearner c pk_ts mdl pk_L 3 2 (toy_features [10; 11; 12]) 2
    None None None None None None.

(** A learner whose feature matrix has one row too few. *)
Definition pk_learner_short : @Learner picky :=
  MkLearner JointLearner pk_ts (Some 0) pk_L 3 2 (toy_features [10; 11]) 2
    None None None None None None.

(** A learner over no candidates whose feature matrix has two rows. *)
Definition pk_learner_empty : @Learner picky :=
  MkLearner JointLearner pk_ts (Some 0) (label_matrix (C:=picky) pk_lfs [])
    0 2 (toy_features [10; 11]) 2 None None None None None None.

(** The joint learner after [train], and after a first [test] on list 0 with
    the gold labels at 0, or with those at 3. *)
Definition pk_trained : @LState picky :=
  (Learner_train (C:=picky) 5%Z 0%Z 7 (pk_world, pk_learner JointLearner (Some 0))).2.
Definition pk_tested : @LState picky :=
  (Learner_test (C:=picky) 0 0 false pk_trained).2.
Definition pk_tested_ones : @LState picky :=
  (Learner_test (C:=picky) 0 3 false pk_trained).2.

End Picky.

(** * Properties *)

Section Properties.
Context {C : Collaborators}.

Abbreviation matrix := (spmatrix Scalar).

Implicit Types (σ : World) (self : Learner) (cs : list Candidate).
Implicit Types (lfs : list LF) (X : matrix).

(** ** Running computations *)

Lemma bind_ok {St A B} (m : Py St A) (k : A → Py St B) s a s' :
  m s = (Ok a, s') → bind m k s = k a s'.
Proof. unfold bind. by intros ->. Qed.

Lemma bind_raise {St A B} (m : Py St A) (k : A → Py St B) s e s' :
  m s = (Raise e, s') → bind m k s = (Raise e, s').
Proof. unfold bind. by intros ->. Qed.

(** ** Bookkeeping on worlds *)

Lemma log_all_nil σ : log_all [] σ = σ.
Proof. destruct σ. unfold log_all. simpl. by rewrite app_nil_r. Qed.

Lemma log_all_app evs evs' σ :
  log_all evs' (log_all evs σ) = log_all (evs ++ evs') σ.
Proof. unfold log_all. simpl. by rewrite (assoc_L (++)). Qed.

Lemma log_one ev σ : log ev σ = log_all [ev] σ.
Proof. reflexivity. Qed.

(** ** The labeling loop *)

(** The inner loop at row [i]: columns [length done ..] of the row are
    overwritten with the values of the remaining labeling functions. *)
Lemma fill_row_run (c : Candidate) (i n m : nat) fm d
    (pre post : list (list Scalar)) :
  length pre = i → i < n →
  ∀ lfs (done rest : list Scalar) σ,
    length rest = length lfs → length done + length lfs = m →
    for_enumerate (λ j (lf : LF) X,
        v <- call_lf i j lf c ;; lift_result (lil_setitem X i j v))
      (length done) lfs (SpMatrix fm d (n, m) (pre ++ (done ++ rest) :: post)) σ
    = (Ok (SpMatrix fm d (n, m)
             (pre ++ (done ++ ((λ lf : LF, float_of_int (lf c)) <$> lfs)) :: post)),
       log_all (EvLF i <$> seq (length done) (length lfs)) σ).
Proof.
  intros Hpre Hi lfs. induction lfs as [|lf lfs IH]; intros done rest σ Hrest Hm.
  - destruct rest; [|done]. simpl. by rewrite log_all_nil.
  - destruct rest as [|r rest]; [done|]. simpl in Hrest, Hm.
    cbn [for_enumerate]. unfold bind at 1.
    unfold call_lf, bind, modify, ret, lift_result, lil_setitem. cbn [shape fst snd].
    rewrite decide_True by lia.
    cbn [fmt dt shape rows].
    replace (alter _ i (pre ++ (done ++ r :: rest) :: post))
      with (pre ++ ((done ++ [float_of_int (lf c)]) ++ rest) :: post).
    2:{ rewrite alter_app_r_alt by lia. rewrite Hpre, Nat.sub_diag. simpl.
        rewrite insert_app_r_alt by lia. rewrite Nat.sub_diag. simpl.
        by rewrite <-(assoc_L (++)). }
    replace (S (length done)) with (length (done ++ [float_of_int (lf c)]))
      by (rewrite length_app; simpl; lia).
    rewrite IH; [|lia|rewrite length_app; simpl; lia].
    rewrite log_one, log_all_app. rewrite <-(assoc_L (++)). simpl.
    by rewrite length_app, Nat.add_1_r.
Qed.

(** The outer loop: the remaining all-zero rows are filled one by one. *)
Lemma fill_rows_run lfs (n : nat) :
  ∀ cs (done : list (list Scalar)) σ,
    length done + length cs = n →
    for_enumerate (λ i c X,
        for_enumerate (λ j (lf : LF) X,
            v <- call_lf i j lf c ;; lift_result (lil_setitem X i j v))
          0 lfs X)
      (length done) cs
      (SpMatrix LIL Float64 (n, length lfs)
         (done ++ replicate (length cs)
                    (replicate (length lfs) (float_of_int 0)))) σ
    = (Ok (SpMatrix LIL Float64 (n, length lfs)
             (done ++ ((λ c, (λ lf : LF, float_of_int (lf c)) <$> lfs) <$> cs))),
       log_all (i ← seq (length done) (length cs);
                EvLF i <$> seq 0 (length lfs)) σ).
Proof.
  induction cs as [|c cs IH]; intros done σ Hn.
  - simpl. by rewrite log_all_nil.
  - simpl in Hn. cbn [for_enumerate length replicate]. unfold bind at 1.
    pose proof (fill_row_run c (length done) n (length lfs) LIL Float64 done
      (replicate (length cs) (replicate (length lfs) (float_of_int 0)))
      eq_refl ltac:(lia) lfs [] (replicate (length lfs) (float_of_int 0)) σ
      ltac:(by rewrite length_replicate) eq_refl) as Hrow.
    simpl in Hrow. rewrite Hrow. clear Hrow.
    set (row := (λ lf : LF, float_of_int (lf c)) <$> lfs).
    replace (done ++ row :: replicate (length cs)
                              (replicate (length lfs) (float_of_int 0)))
      with ((done ++ [row]) ++ replicate (length cs)
                                 (replicate (length lfs) (float_of_int 0)))
      by (by rewrite <-(assoc_L (++))).
    replace (S (length done)) with (length (done ++ [row]))
      by (rewrite length_app; simpl; lia).
    rewrite IH by (rewrite length_app; simpl; lia).
    rewrite log_all_app, <-(assoc_L (++)). simpl.
    by rewrite length_app, Nat.add_1_r.
Qed.

(** [_apply_lfs] computes the label matrix in closed form and calls every
    labeling function on every candidate, row by row. *)
Lemma apply_lfs_run lfs (l : loc) cs σ :
  cand_lists σ !! l = Some cs →
  TrainingSet_apply_lfs lfs l σ
  = (Ok (label_matrix lfs cs), log_all (lf_calls (length cs) (length lfs)) σ).
Proof.
  intros Hl. unfold TrainingSet_apply_lfs.
  erewrite bind_ok; [|unfold deref_cands; by rewrite Hl].
  erewrite bind_ok; [|apply (fill_rows_run lfs (length cs) cs [] σ eq_refl)].
  reflexivity.
Qed.

Lemma entry_label_matrix lfs cs (i j : nat) :
  entry (label_matrix lfs cs) i j
  = c ← cs !! i; lf ← lfs !! j; Some (float_of_int ((lf : LF) c)).
Proof.
  unfold entry, label_matrix. cbn [rows].
  rewrite list_lookup_fmap. destruct (cs !! i) as [c|]; [|done]. simpl.
  rewrite list_lookup_fmap. by destruct (lfs !! j).
Qed.

Lemma elem_of_lf_calls (n m i j : nat) :
  EvLF i j ∈ lf_calls n m ↔ i < n ∧ j < m.
Proof.
  unfold lf_calls. rewrite list_elem_of_bind. split.
  - intros (i' & Hin & Hi'). apply list_elem_of_fmap in Hin as (j' & Heq & Hj').
    injection Heq as -> ->. apply elem_of_seq in Hi', Hj'. lia.
  - intros [Hi Hj]. exists i. split.
    + apply list_elem_of_fmap. exists j. split; [done|]. apply elem_of_seq. lia.
    + apply elem_of_seq. lia.
Qed.

Lemma length_lf_calls (n m : nat) : length (lf_calls n m) = n * m.
Proof.
  unfold lf_calls.
  cut (∀ k, length (i ← seq k n; EvLF i <$> seq 0 m) = n * m); [done|].
  induction n as [|n IH]; intros k; [done|].
  simpl. rewrite length_app, length_fmap, length_seq, IH. lia.
Qed.

(** C6, as the code has it: for a sequence of candidates [cs] and labeling
    functions [lfs], [_apply_lfs] returns a sparse matrix in CSR layout whose
    element type is float64 (not int8), of shape [(len(cs), len(lfs))], whose
    stored rows fill that shape, and whose entry [(i, j)] is
    [lfs[j](cs[i])] as a float64; the labeling functions are called once for
    every cell, row by row; and when every labeling function takes its values
    in {-1, 0, 1} on the candidates, so does every entry. *)
Theorem apply_lfs_label_matrix lfs (l : loc) cs σ :
  cand_lists σ !! l = Some cs →
  ∃ X σ',
    TrainingSet_apply_lfs lfs l σ = (Ok X, σ') ∧
    fmt X = CSR ∧ dt X = Float64 ∧
    shape X = (length cs, length lfs) ∧
    length (rows X) = length cs ∧
    (∀ row, row ∈ rows X → length row = length lfs) ∧
    (∀ i j c (lf : LF), cs !! i = Some c → lfs !! j = Some lf →
       entry X i j = Some (float_of_int (lf c))) ∧
    trace σ' = trace σ ++ lf_calls (length cs) (length lfs) ∧
    (∀ i j, i < length cs → j < length lfs →
       EvLF i j ∈ lf_calls (length cs) (length lfs)) ∧
    length (lf_calls (length cs) (length lfs)) = length cs * length lfs ∧
    ((∀ c (lf : LF), c ∈ cs → lf ∈ lfs → lf c ∈ [-1; 0; 1]%Z) →
     ∀ i j x, entry X i j = Some x →
       x ∈ [float_of_int (-1); float_of_int 0; float_of_int 1]).
Proof.
  intros Hl. exists (label_matrix lfs cs), (log_all (lf_calls (length cs) (length lfs)) σ).
  split; [by apply apply_lfs_run|].
  repeat split; try done.
  - cbn [label_matrix rows]. by rewrite length_fmap.
  - cbn [label_matrix rows]. intros row Hrow.
    apply list_elem_of_fmap in Hrow as (c & -> & _). by rewrite length_fmap.
  - intros i j c lf Hc Hlf. rewrite entry_label_matrix, Hc. simpl. by rewrite Hlf.
  - intros i j Hi Hj. by apply elem_of_lf_calls.
  - apply length_lf_calls.
  - intros Hrange i j x. rewrite entry_label_matrix.
    destruct (cs !! i) as [c|] eqn:Hc; [|done]. simpl.
    destruct (lfs !! j) as [lf|] eqn:Hlf; [|done]. simpl.
    intros [= <-].
    pose proof (Hrange c lf (list_elem_of_lookup_2 _ _ _ Hc)
                  (list_elem_of_lookup_2 _ _ _ Hlf)) as Hv.
    rewrite !elem_of_cons in Hv. rewrite !elem_of_cons.
    destruct Hv as [->|[->|[->|Hv]]]; eauto. by apply elem_of_nil in Hv.
Qed.

(** ** TrainingSet.transform and the constructor *)

Lemma print_run (s : string) σ : print s σ = (Ok tt, log_all [EvPrint s] σ).
Proof. reflexivity. Qed.

(** The labeling half of [transform]. *)
Lemma transform_labelling lfs (l : loc) cs σ :
  cand_lists σ !! l = Some cs →
  (print "Applying LFs..." ;;; TrainingSet_apply_lfs lfs l) σ
  = (Ok (label_matrix lfs cs),
     log_all (labelling_events (length cs) (length lfs)) σ).
Proof.
  intros Hl. erewrite bind_ok; [|apply print_run].
  rewrite (apply_lfs_run lfs l cs) by done. by rewrite log_all_app.
Qed.

Lemma transform_run_bare lfs (l : loc) cs σ (fit : bool) :
  cand_lists σ !! l = Some cs →
  TrainingSet_transform lfs None l fit σ
  = (Ok (label_matrix lfs cs, None),
     log_all (labelling_events (length cs) (length lfs)) σ).
Proof.
  intros Hl. unfold TrainingSet_transform.
  pose proof (transform_labelling lfs l cs σ Hl) as Hlab.
  unfold bind at 1 in Hlab. unfold bind at 1.
  destruct (print _ σ) as [[[]|e] σp]; [|done].
  erewrite bind_ok; [|exact Hlab]. reflexivity.
Qed.

Lemma transform_run_featurizer lfs (l : loc) cs σ (fit : bool) (fz : loc) o :
  cand_lists σ !! l = Some cs →
  featurizers σ !! fz = Some o →
  TrainingSet_transform lfs (Some fz) l fit σ
  = (let '(r, o') := if fit then fz_fit_transform o cs else fz_transform o cs in
     (match r with
      | Ok F => Ok (label_matrix lfs cs, Some F)
      | Raise e => Raise e
      end,
      store_featurizer fz o'
        (log_all (labelling_events (length cs) (length lfs) ++
                  [EvPrint "Featurizing...";
                   if fit then EvFitTransform fz cs else EvTransform fz cs]) σ))).
Proof.
  intros Hl Hfz. unfold TrainingSet_transform.
  pose proof (transform_labelling lfs l cs σ Hl) as Hlab.
  unfold bind at 1 in Hlab. unfold bind at 1.
  destruct (print _ σ) as [[[]|e] σp]; [|done].
  erewrite bind_ok; [|exact Hlab].
  unfold bind at 1. erewrite bind_ok; [|apply print_run].
  erewrite bind_ok; [|unfold deref_cands; cbn [log_all cand_lists]; by rewrite Hl].
  unfold bind, ret, call_featurizer.
  destruct fit; cbn beta; cbn [log_all featurizers]; rewrite Hfz;
    rewrite log_one, !log_all_app.
  - destruct (fz_fit_transform o cs) as [[F|e] o']; reflexivity.
  - destruct (fz_transform o cs) as [[F|e] o']; reflexivity.
Qed.

(** C8: [transform(candidates, fit)] always starts by applying the labeling
    functions (the label matrix is the first component of its result and the
    calls come first in the trace); with a featurizer it then calls
    [fit_transform] when [fit] is true and [transform] when it is false, on the
    same candidates; without a featurizer the returned [F] is [None]. *)
Theorem transform_spec lfs (l : loc) cs σ (fit : bool) :
  cand_lists σ !! l = Some cs →
  let σL := log_all (labelling_events (length cs) (length lfs)) σ in
  TrainingSet_transform lfs None l fit σ
    = (Ok (label_matrix lfs cs, None), σL) ∧
  ∀ (fz : loc) o, featurizers σ !! fz = Some o →
    TrainingSet_transform lfs (Some fz) l fit σ
    = (let '(r, o') :=
         if fit then fz_fit_transform o cs else fz_transform o cs in
       (match r with
        | Ok F => Ok (label_matrix lfs cs, Some F)
        | Raise e => Raise e
        end,
        store_featurizer fz o'
          (log_all [EvPrint "Featurizing...";
                    if fit then EvFitTransform fz cs else EvTransform fz cs]
             σL))).
Proof.
  intros Hl σL. split; [by apply transform_run_bare|].
  intros fz o Hfz. rewrite (transform_run_featurizer lfs l cs σ fit fz o) by done.
  unfold σL. by rewrite log_all_app.
Qed.

(** C7: the constructor is eager.  [TrainingSet(candidates, lfs, featurizer)]
    runs [transform(candidates, fit=True)] and stores its two results as [L] and
    [F]: the object it returns already holds the label matrix of the training
    candidates and, with a featurizer, the matrix returned by [fit_transform],
    and the calls that computed them are in the trace when it returns. *)
Theorem TrainingSet_init_eager lfs (l : loc) cs σ (fzo : option loc) :
  cand_lists σ !! l = Some cs →
  TrainingSet_init l lfs fzo σ
    = (let '(r, σ') := TrainingSet_transform lfs fzo l true σ in
       (match r with
        | Ok LF => Ok (MkTrainingSet l fzo lfs LF.1 LF.2)
        | Raise e => Raise e
        end, σ')) ∧
  TrainingSet_init l lfs None σ
    = (Ok (MkTrainingSet l None lfs (label_matrix lfs cs) None),
       log_all (labelling_events (length cs) (length lfs)) σ) ∧
  ∀ (fz : loc) o F o',
    featurizers σ !! fz = Some o →
    fz_fit_transform o cs = (Ok F, o') →
    TrainingSet_init l lfs (Some fz) σ
    = (Ok (MkTrainingSet l (Some fz) lfs (label_matrix lfs cs) (Some F)),
       store_featurizer fz o'
         (log_all (labelling_events (length cs) (length lfs) ++
                   [EvPrint "Featurizing..."; EvFitTransform fz cs]) σ)).
Proof.
  intros Hl. split; [|split].
  - unfold TrainingSet_init, bind, ret.
    by destruct (TrainingSet_transform lfs fzo l true σ) as [[[L F]|e] σ'].
  - unfold TrainingSet_init.
    erewrite bind_ok; [|by apply transform_run_bare]. reflexivity.
  - intros fz o F o' Hfz Hfit. unfold TrainingSet_init.
    pose proof (transform_run_featurizer lfs l cs σ true fz o Hl Hfz) as Hrun.
    rewrite Hfit in Hrun.
    erewrite bind_ok; [|exact Hrun]. reflexivity.
Qed.

(** ** Learner construction *)

Lemma transform_bare_F lfs (l : loc) (fit : bool) σ L F σ' :
  TrainingSet_transform lfs None l fit σ = (Ok (L, F), σ') → F = None.
Proof.
  unfold TrainingSet_transform, bind, ret.
  destruct (print _ σ) as [[[]|?] ?]; [|done].
  destruct (TrainingSet_apply_lfs _ _ _) as [[?|?] ?]; [|done].
  by intros [= _ <- _].
Qed.

Lemma Learner_init_dims (c : learner_class) (ts : TrainingSet)
    (mdl : option loc) self :
  Learner_init c ts mdl = Ok self →
  cls self = c ∧ training_set self = ts ∧ model self = mdl ∧
  L_train self = ts_L ts ∧ ts_F ts = Some (F_train self) ∧
  (n_train self, lr_m self) = shape (ts_L ts) ∧
  lr_f self = (shape (F_train self)).2 ∧
  X_train self = None ∧ test_candidates self = None ∧
  gold_labels self = None ∧ X_test self = None.
Proof.
  unfold Learner_init. destruct (shape (ts_L ts)) as [n m] eqn:Hshape.
  destruct (ts_F ts) as [F|]; [|done]. intros [= <-]. by cbn.
Qed.

(** C9: a learner of either class cannot be constructed over a training set
    that was built without a featurizer: the training set's [F] is [None], and
    [Learner.__init__] raises [AttributeError] when it reads [F.shape], before
    any matrix is concatenated and before any model is called. *)
Theorem Learner_init_without_featurizer lfs (l : loc) σ (ts : TrainingSet) σ'
    (c : learner_class) (mdl : option loc) :
  TrainingSet_init l lfs None σ = (Ok ts, σ') →
  ts_F ts = None ∧ Learner_init c ts mdl = Raise AttributeError.
Proof.
  unfold TrainingSet_init, bind, ret.
  destruct (TrainingSet_transform lfs None l true σ) as [[[L F]|e] σ1] eqn:Ht;
    [|done].
  apply transform_bare_F in Ht as ->. intros [= <- _]. split; [done|].
  unfold Learner_init. cbn. by destruct (shape L).
Qed.

(** ** The two ways of building the model input *)

(** C4: [PipelinedLearner._set_model_X(L, F)] does not depend on [L], and
    returns [F] itself in CSC layout: same element type, same shape, same
    entries. *)
Theorem PipelinedLearner_set_model_X_ignores_L :
  (∀ (L1 L2 : matrix) (F : option matrix),
     PipelinedLearner_set_model_X L1 F = PipelinedLearner_set_model_X L2 F) ∧
  (∀ (L F : matrix),
     ∃ X, PipelinedLearner_set_model_X L (Some F) = Ok X ∧
          fmt X = CSC ∧ dt X = dt F ∧ shape X = shape F ∧ rows X = rows F).
Proof.
  split; [done|]. intros L F. exists (tocsc F). by repeat split.
Qed.

Lemma scale_ones (x : Scalar) (n : nat) : np_scale x (np_ones n) = replicate n x.
Proof.
  unfold np_scale, np_ones. rewrite fmap_replicate. by rewrite fmul_one_r.
Qed.

Lemma hstack_csc_run (A B : matrix) :
  (shape A).1 = (shape B).1 → hstack_csc A (Some B) = Ok (hstack_of A B).
Proof. intros Hrows. unfold hstack_csc. by rewrite decide_True. Qed.

Lemma call_model_run {A} (meth : Model → result A * Model) (ev : loc → event)
    (l : loc) o σ :
  models σ !! l = Some o →
  call_model meth ev (Some l) σ
  = ((meth o).1, store_model l (meth o).2 (log (ev l) σ)).
Proof. intros Hl. unfold call_model. rewrite Hl. by destruct (meth o). Qed.

Lemma in_world_run {A} (m : Py World A) σ self :
  in_world m (σ, self) = ((m σ).1, ((m σ).2, self)).
Proof. unfold in_world. cbn. by destruct (m σ). Qed.

(** ** Joint training *)

(** C1: [Learner.train(lf_w0, feat_w0, **hp)] on a joint learner builds [w0] as
    [m] copies of [lf_w0] followed by [f] copies of [feat_w0], assigns to
    [X_train] the horizontal concatenation of [L_train] and [F_train] in CSC
    layout, and then makes exactly one call, [model.train(X_train, w0=w0,
    **hp)], adding no training marginals of its own to the hyperparameters;
    the outcome of [train] is the outcome of that call.  Afterwards the
    learner's [X_train] is that concatenation and each of its other fields is
    what it was. *)
Theorem Learner_train_joint σ self (lm : loc) o (lf_w0 feat_w0 : Scalar)
    (hp : Hyper) :
  cls self = JointLearner →
  model self = Some lm →
  models σ !! lm = Some o →
  (shape (L_train self)).1 = (shape (F_train self)).1 →
  let w0 := replicate (lr_m self) lf_w0 ++ replicate (lr_f self) feat_w0 in
  let X := hstack_of (L_train self) (F_train self) in
  fmt X = CSC ∧
  rows X = zip_with app (rows (L_train self)) (rows (F_train self)) ∧
  Learner_train lf_w0 feat_w0 hp (σ, self)
  = (let '(r, o') := model_train o X None w0 hp in
     (match r with Ok _ => Ok tt | Raise e => Raise e end,
      (store_model lm o' (log (EvTrain lm X None w0 hp) σ),
       set_X_train (Some X) self))) ∧
  X_train (Learner_train lf_w0 feat_w0 hp (σ, self)).2.2 = Some X ∧
  agree_outside_X_train (Learner_train lf_w0 feat_w0 hp (σ, self)).2.2 self.
Proof.
  intros Hcls Hmodel Ho Hrows w0 X. split; [done|]. split; [done|].
  cut (Learner_train lf_w0 feat_w0 hp (σ, self)
       = (let '(r, o') := model_train o X None w0 hp in
          (match r with Ok _ => Ok tt | Raise e => Raise e end,
           (store_model lm o' (log (EvTrain lm X None w0 hp) σ),
            set_X_train (Some X) self)))).
  { intros Hrun. split; [exact Hrun|]. rewrite Hrun.
    destruct (model_train o X None w0 hp) as [r o']. cbn.
    split; [done|]. by unfold agree_outside_X_train. }
  unfold Learner_train.
  erewrite bind_ok; [|reflexivity]. cbn [snd].
  rewrite Hcls. cbn [set_model_X]. unfold Learner_set_model_X.
  rewrite hstack_csc_run by done.
  erewrite bind_ok; [|reflexivity].
  erewrite bind_ok; [|reflexivity].
  erewrite bind_ok; [|reflexivity]. cbn [snd set_X_train model].
  rewrite Hmodel. unfold bind. rewrite in_world_run.
  unfold call_train. rewrite (call_model_run _ _ lm o) by done.
  unfold np_concatenate. cbn [concat]. rewrite !scale_ones, app_nil_r.
  fold w0. fold X. cbn [fst snd].
  by destruct (model_train o X None w0 hp) as [[r|e] o'].
Qed.

(** C3: on a joint learner whose model holds a weight vector [w] with one
    entry per column of the model input ([m + f] entries), [lf_weights()]
    returns the first [m] entries of [w], [feat_weights()] the remaining [f]
    entries, and the two put end to end are [w]; neither call changes the
    heap or the learner. *)
Theorem joint_weights_split σ self (lm : loc) o (w : list Scalar) :
  model self = Some lm →
  models σ !! lm = Some o →
  model_w o = Some w →
  length w = lr_m self + lr_f self →
  ∃ lw fw,
    Learner_lf_weights (σ, self) = (Ok lw, (σ, self)) ∧
    Learner_feat_weights (σ, self) = (Ok fw, (σ, self)) ∧
    lw = take (lr_m self) w ∧ length lw = lr_m self ∧
    fw = drop (lr_m self) w ∧ length fw = lr_f self ∧
    lw ++ fw = w.
Proof.
  intros Hmodel Ho Hw Hlen. exists (take (lr_m self) w), (drop (lr_m self) w).
  assert (read_w (Some lm) σ = (Ok w, σ)) as Hread.
  { unfold read_w. rewrite Ho. cbn. by rewrite Hw. }
  repeat split.
  - unfold Learner_lf_weights. erewrite bind_ok; [|reflexivity]. cbn [snd].
    rewrite Hmodel. erewrite bind_ok; [reflexivity|].
    by rewrite in_world_run, Hread.
  - unfold Learner_feat_weights. erewrite bind_ok; [|reflexivity]. cbn [snd].
    rewrite Hmodel. erewrite bind_ok; [reflexivity|].
    by rewrite in_world_run, Hread.
  - rewrite length_take. lia.
  - rewrite length_drop. lia.
  - apply take_drop.
Qed.

(** ** Pipelined training *)

Lemma read_w_run (l : loc) o σ :
  models σ !! l = Some o → read_w (Some l) σ = (attr_w o, σ).
Proof.
  intros Hl. unfold read_w, attr_w. rewrite Hl. cbn. by destruct (model_w o).
Qed.

Lemma fresh_model_loc σ : models σ !! fresh (dom (models σ)) = None.
Proof. apply not_elem_of_dom, is_fresh. Qed.

(** C2: [PipelinedLearner.train(feat_w0, lf_w0, **hp)] trains in two stages.
    It creates a new [LogReg] object at a location that was not in use, trains
    it on [L_train] alone from [lf_w0 * ones(m)], asks it for the marginals of
    [L_train], and then trains the primary model on [F_train] alone (in CSC
    layout) from [feat_w0 * ones(f)] with those marginals as
    [training_marginals]; the hyperparameters go to both [train] calls.  These
    three calls are all it does.  Afterwards [lf_weights()] is the whole weight
    vector of the training model and [feat_weights()] the whole weight vector
    of the primary model. *)
Theorem PipelinedLearner_train_two_stage σ self (lm : loc) mo
    (feat_w0 lf_w0 : Scalar) (hp : Hyper) r1 tm1 marg tm2 :
  cls self = PipelinedLearner →
  model self = Some lm →
  models σ !! lm = Some mo →
  let ltm := fresh (dom (models σ)) in
  let L := L_train self in
  let X := tocsc (F_train self) in
  let w0_1 := replicate (lr_m self) lf_w0 in
  let w0_2 := replicate (lr_f self) feat_w0 in
  model_train LogReg L None w0_1 hp = (Ok r1, tm1) →
  model_marginals tm1 (Some L) = (Ok marg, tm2) →
  let r2 := (model_train mo X (Some marg) w0_2 hp).1 in
  let mo' := (model_train mo X (Some marg) w0_2 hp).2 in
  ∃ σ' self',
    PipelinedLearner_train feat_w0 lf_w0 hp (σ, self)
      = (match r2 with Ok _ => Ok tt | Raise e => Raise e end, (σ', self')) ∧
    models σ !! ltm = None ∧
    trace σ' = trace σ ++ [EvTrain ltm L None w0_1 hp;
                           EvMarginals ltm (Some L);
                           EvTrain lm X (Some marg) w0_2 hp] ∧
    models σ' = <[lm := mo']> (<[ltm := tm2]> (models σ)) ∧
    training_model self' = Some ltm ∧
    model self' = Some lm ∧
    X_train self' = Some X ∧
    PipelinedLearner_lf_weights (σ', self') = (attr_w tm2, (σ', self')) ∧
    PipelinedLearner_feat_weights (σ', self') = (attr_w mo', (σ', self')).
Proof.
  intros Hcls Hmodel Hmo ltm L X w0_1 w0_2 Htrain1 Hmarg r2 mo'.
  assert (ltm ≠ lm) as Hne.
  { intros Heq. pose proof (fresh_model_loc σ) as Hfresh. fold ltm in Hfresh.
    rewrite Heq in Hfresh. congruence. }
  set (σa := store_model ltm LogReg σ).
  set (σb := store_model ltm tm1 (log (EvTrain ltm L None w0_1 hp) σa)).
  set (σc := store_model ltm tm2 (log (EvMarginals ltm (Some L)) σb)).
  set (σd := store_model lm mo' (log (EvTrain lm X (Some marg) w0_2 hp) σc)).
  set (selfa := set_training_model (Some ltm) self).
  set (selfb := set_X_train (Some X) selfa).
  assert (models σc !! lm = Some mo) as Hmo_c.
  { cbn. by rewrite !lookup_insert_ne. }
  assert (models σd !! ltm = Some tm2) as Htm_d.
  { cbn. rewrite lookup_insert_ne by done. by rewrite lookup_insert_eq. }
  assert (models σd !! lm = Some mo') as Hmo_d.
  { cbn. by rewrite lookup_insert_eq. }
  assert (PipelinedLearner_train feat_w0 lf_w0 hp (σ, self)
          = (match r2 with Ok r => Ok tt | Raise e => Raise e end,
             (σd, match r2 with
                  | Ok r => set_w (Some r) selfb
                  | Raise _ => selfb
                  end))) as Hrun.
  { unfold PipelinedLearner_train.
    erewrite bind_ok; [|reflexivity]. cbn [snd]. rewrite !scale_ones.
    fold w0_1 w0_2.
    erewrite bind_ok; [|by rewrite in_world_run].
    erewrite bind_ok; [|reflexivity].
    erewrite bind_ok; [|reflexivity]. cbn [fst snd].
    fold ltm σa. cbn [training_model set_training_model L_train].
    fold L.
    erewrite bind_ok.
    2:{ rewrite in_world_run. unfold call_train.
        rewrite (call_model_run _ _ ltm LogReg) by (cbn; by rewrite lookup_insert_eq).
        rewrite Htrain1. reflexivity. }
    fold σb.
    erewrite bind_ok.
    2:{ rewrite in_world_run. unfold call_marginals.
        rewrite (call_model_run _ _ ltm tm1) by (cbn; by rewrite lookup_insert_eq).
        rewrite Hmarg. reflexivity. }
    fold σc. cbn [fst snd cls F_train set_training_model]. rewrite Hcls.
    cbn [set_model_X].
    erewrite bind_ok; [|reflexivity]. fold X.
    erewrite bind_ok; [|reflexivity].
    erewrite bind_ok; [|reflexivity]. cbn [fst snd].
    cbn [model set_X_train set_training_model]. rewrite Hmodel.
    unfold bind. rewrite in_world_run. unfold call_train.
    rewrite (call_model_run _ _ lm mo) by done.
    fold r2 mo' σd. cbn [fst snd]. by destruct r2. }
  exists σd, (match r2 with Ok r => set_w (Some r) selfb | Raise _ => selfb end).
  split; [exact Hrun|]. split; [apply fresh_model_loc|].
  split; [cbn; by rewrite <-!(assoc_L (++))|].
  split.
  { cbn. by rewrite !insert_insert_eq. }
  assert (∀ s : Learner, s = match r2 with
                             | Ok r => set_w (Some r) selfb
                             | Raise _ => selfb
                             end →
          training_model s = Some ltm ∧ model s = Some lm ∧ X_train s = Some X)
    as Hfields.
  { intros s ->. by destruct r2. }
  destruct (Hfields _ eq_refl) as (Htm & Hm & HX).
  repeat split; try done.
  - unfold PipelinedLearner_lf_weights. erewrite bind_ok; [|reflexivity].
    cbn [snd]. rewrite Htm, in_world_run. by rewrite (read_w_run ltm tm2).
  - unfold PipelinedLearner_feat_weights. erewrite bind_ok; [|reflexivity].
    cbn [snd]. rewrite Hm, in_world_run. by rewrite (read_w_run lm mo').
Qed.

(** ** Frame conditions *)

Section preserves.
Context {St : Type} (R : relation St) `{!PreOrder R}.

Lemma preserves_ret {A} (a : A) : preserves R (ret a).
Proof. intros s. reflexivity. Qed.
Lemma preserves_raise {A} (e : exn) : preserves R (raise (A:=A) e).
Proof. intros s. reflexivity. Qed.
Lemma preserves_lift_result {A} (r : result A) : preserves R (lift_result r).
Proof. intros s. reflexivity. Qed.
Lemma preserves_gets {A} (f : St → A) : preserves R (gets f).
Proof. intros s. reflexivity. Qed.

Lemma preserves_bind {A B} (m : Py St A) (k : A → Py St B) :
  preserves R m → (∀ a, preserves R (k a)) → preserves R (bind m k).
Proof.
  intros Hm Hk s. unfold bind. specialize (Hm s).
  destruct (m s) as [[a|e] s1]; [|done].
  etrans; [exact Hm|apply Hk].
Qed.

Lemma preserves_if {A} (b : bool) (m1 m2 : Py St A) :
  preserves R m1 → preserves R m2 → preserves R (if b then m1 else m2).
Proof. by destruct b. Qed.

Lemma preserves_for_enumerate {A B} (body : nat → A → B → Py St B) :
  (∀ i a acc, preserves R (body i a acc)) →
  ∀ l i acc, preserves R (for_enumerate body i l acc).
Proof.
  intros Hbody l. induction l as [|a l IH]; intros i acc.
  - apply preserves_ret.
  - cbn [for_enumerate]. apply preserves_bind; [apply Hbody|].
    intros acc'. apply IH.
Qed.
End preserves.

Global Instance calm_preorder : PreOrder calm.
Proof.
  split.
  - by intros σ.
  - intros σ1 σ2 σ3 [[Hc12 Ha12] Ht12] [[Hc23 Ha23] Ht23]. repeat split; congruence.
Qed.

Global Instance quiet_preorder : PreOrder quiet.
Proof.
  split.
  - intros s. split; [done|reflexivity].
  - intros s1 s2 s3 [Hs12 Hc12] [Hs23 Hc23]. split; [congruence|by etrans].
Qed.

Lemma transform_runs_app (t t' : list event) :
  transform_runs (t ++ t') = transform_runs t + transform_runs t'.
Proof. unfold transform_runs. by rewrite List.filter_app, length_app. Qed.


Lemma calm_log ev σ : is_transform_entry ev = false → calm σ (log ev σ).
Proof.
  intros Hev. split; [done|]. cbn [log trace]. rewrite transform_runs_app.
  unfold transform_runs at 2. cbn [List.filter]. rewrite Hev. cbn. lia.
Qed.

Lemma calm_store_model (l : loc) o σ : calm σ (store_model l o σ).
Proof. done. Qed.
Lemma calm_store_featurizer (l : loc) o σ : calm σ (store_featurizer l o σ).
Proof. done. Qed.

Lemma preserves_deref_cands (l : loc) : preserves calm (deref_cands l).
Proof. intros σ. unfold deref_cands. by destruct (cand_lists σ !! l). Qed.
Lemma preserves_deref_array (l : loc) : preserves calm (deref_array l).
Proof. intros σ. unfold deref_array. by destruct (arrays σ !! l). Qed.

Lemma preserves_log ev :
  is_transform_entry ev = false → preserves calm (modify (log ev)).
Proof. intros Hev σ. by apply calm_log. Qed.

Lemma preserves_call_lf (i j : nat) (lf : LF) c : preserves calm (call_lf i j lf c).
Proof.
  apply preserves_bind; [apply _|by apply preserves_log|].
  intros _. apply preserves_ret, _.
Qed.

Lemma preserves_call_featurizer meth ev (fz : loc) cs :
  is_transform_entry (ev fz cs) = false →
  preserves calm (call_featurizer meth ev fz cs).
Proof.
  intros Hev σ. unfold call_featurizer.
  destruct (featurizers σ !! fz) as [o|]; [|done].
  destruct (meth o cs) as [r o']. cbn [snd].
  etrans; [by apply calm_log|apply calm_store_featurizer].
Qed.

Lemma preserves_call_model {A} (meth : Model → result A * Model) ev mdl :
  (∀ l, is_transform_entry (ev l) = false) →
  preserves calm (call_model meth ev mdl).
Proof.
  intros Hev σ. unfold call_model. destruct mdl as [l|]; [|done].
  destruct (models σ !! l) as [o|]; [|done].
  destruct (meth o) as [r o']. cbn [snd].
  etrans; [by apply calm_log|apply calm_store_model].
Qed.

Lemma preserves_apply_lfs lfs (l : loc) :
  preserves calm (TrainingSet_apply_lfs lfs l).
Proof.
  unfold TrainingSet_apply_lfs.
  apply preserves_bind; [apply _|apply preserves_deref_cands|]. intros cs.
  apply preserves_bind; [apply _| |intros X; apply preserves_ret, _].
  apply preserves_for_enumerate; [apply _|]. intros i c X.
  apply preserves_for_enumerate; [apply _|]. intros j lf X'.
  apply preserves_bind; [apply _|apply preserves_call_lf|].
  intros v. apply preserves_lift_result, _.
Qed.

(** [transform] enters once, by its first [print], and stays calm after it. *)
Lemma transform_enters_once lfs (fzo : option loc) (l : loc) (fit : bool) σ :
  let σ' := (TrainingSet_transform lfs fzo l fit σ).2 in
  same_data σ σ' ∧ transform_runs (trace σ') = S (transform_runs (trace σ)).
Proof.
  set (rest := L <- TrainingSet_apply_lfs lfs l ;;
               F <- match fzo with
                    | None => ret None
                    | Some fz =>
                        print "Featurizing..." ;;;
                        cs <- deref_cands l ;;
                        F <- (if fit
                              then call_featurizer fz_fit_transform
                                     EvFitTransform fz cs
                              else call_featurizer fz_transform
                                     EvTransform fz cs) ;;
                        ret (Some F)
                    end ;;
               ret (L, F)).
  assert (preserves calm rest) as Hrest.
  { apply preserves_bind; [apply _|apply preserves_apply_lfs|]. intros L.
    apply preserves_bind; [apply _| |intros F; apply preserves_ret, _].
    destruct fzo as [fz|]; [|apply preserves_ret, _].
    apply preserves_bind; [apply _|by apply preserves_log|]. intros _.
    apply preserves_bind; [apply _|apply preserves_deref_cands|]. intros cs.
    apply preserves_bind; [apply _| |intros F; apply preserves_ret, _].
    destruct fit; by apply preserves_call_featurizer. }
  change (TrainingSet_transform lfs fzo l fit σ)
    with (rest (log (EvPrint "Applying LFs...") σ)).
  destruct (Hrest (log (EvPrint "Applying LFs...") σ)) as [Hdata Hruns].
  cbn zeta. split; [exact Hdata|]. rewrite Hruns. cbn [log trace].
  rewrite transform_runs_app. cbn. lia.
Qed.

(** ** Learner.test: the pieces *)

Section reads.
Context {St D : Type} (view : St → D).

Lemma reads_ret {A} (a : A) : reads view (ret a).
Proof. by intros s. Qed.
Lemma reads_raise {A} (e : exn) : reads view (raise (A:=A) e).
Proof. by intros s. Qed.
Lemma reads_lift_result {A} (r : result A) : reads view (lift_result r).
Proof. by intros s. Qed.

Lemma reads_bind {A B} (m : Py St A) (k : A → Py St B) :
  reads view m → (∀ a, reads view (k a)) → reads view (bind m k).
Proof.
  intros Hm Hk s. unfold bind.
  destruct (Hm s) as [Hs Hr]. split.
  - destruct (m s) as [[a|e] s1]; cbn in Hs; subst s1; [apply Hk|done].
  - intros s' Hview. specialize (Hr s' Hview).
    destruct (Hm s') as [Hs' _].
    destruct (m s) as [[a|e] s1], (m s') as [[a'|e'] s1'];
      cbn in Hs, Hs', Hr; subst; try done.
    + injection Hr as ->. by apply Hk.
    + by injection Hr as ->.
Qed.
End reads.

Lemma reads_get_self : reads cache_view get_self.
Proof.
  intros s. split; [done|]. intros s' [= _ _ Hs].
  unfold get_self, gets. cbn. by rewrite Hs.
Qed.

Lemma reads_deref_cands (l : loc) : reads cache_view (in_world (deref_cands l)).
Proof.
  intros [σ self]. unfold in_world, deref_cands. cbn. split.
  - by destruct (cand_lists σ !! l).
  - intros [σ' self'] [= Hc _ _]. cbn. rewrite <-Hc.
    by destruct (cand_lists σ !! l).
Qed.

Lemma reads_deref_array (l : loc) : reads cache_view (in_world (deref_array l)).
Proof.
  intros [σ self]. unfold in_world, deref_array. cbn. split.
  - by destruct (arrays σ !! l).
  - intros [σ' self'] [= _ Ha _]. cbn. rewrite <-Ha.
    by destruct (arrays σ !! l).
Qed.

Lemma reads_cache_miss (tc gl : loc) : reads cache_view (cache_miss tc gl).
Proof.
  unfold cache_miss. apply reads_bind; [apply reads_get_self|]. intros self.
  destruct (X_test self); [|apply reads_ret].
  apply reads_bind.
  - destruct (test_candidates self); [|apply reads_ret].
    apply reads_bind; [apply reads_deref_cands|]. intros cs.
    apply reads_bind; [apply reads_deref_cands|]. intros cs0. apply reads_ret.
  - intros [|]; [apply reads_ret|].
    destruct (gold_labels self); [|apply reads_raise].
    apply reads_bind; [apply reads_deref_array|]. intros g.
    apply reads_bind; [apply reads_deref_array|]. intros g0.
    apply reads_bind; [apply reads_lift_result|]. intros ne. apply reads_ret.
Qed.

Lemma cache_miss_state (tc gl : loc) s : (cache_miss tc gl s).2 = s.
Proof. apply reads_cache_miss. Qed.

Lemma in_world_deref_cands (l : loc) σ self cs :
  cand_lists σ !! l = Some cs →
  in_world (deref_cands l) (σ, self) = (Ok cs, (σ, self)).
Proof. intros Hl. unfold in_world, deref_cands. cbn. by rewrite Hl. Qed.

Lemma in_world_deref_array (l : loc) σ self (a : list Z) :
  arrays σ !! l = Some a →
  in_world (deref_array l) (σ, self) = (Ok a, (σ, self)).
Proof. intros Hl. unfold in_world, deref_array. cbn. by rewrite Hl. Qed.

(** The guard on a populated cache, in terms of the contents compared. *)
Lemma cache_miss_run (tc gl l0 g0 : loc) σ self X cs cs0 :
  X_test self = Some X →
  test_candidates self = Some l0 →
  gold_labels self = Some g0 →
  cand_lists σ !! tc = Some cs →
  cand_lists σ !! l0 = Some cs0 →
  (cs ≠ cs0 → cache_miss tc gl (σ, self) = (Ok true, (σ, self))) ∧
  ∀ g gv0, arrays σ !! gl = Some g → arrays σ !! g0 = Some gv0 → cs = cs0 →
    cache_miss tc gl (σ, self)
    = (match np_ne g gv0 with
       | Ok ne => Ok (py_any ne)
       | Raise e => Raise e
       end, (σ, self)).
Proof.
  intros HX Hl0 Hg0 Hcs Hcs0.
  assert ((cs <- in_world (deref_cands tc) ;;
           cs0 <- in_world (deref_cands l0) ;;
           ret (bool_decide (cs ≠ cs0))) (σ, self)
          = (Ok (bool_decide (cs ≠ cs0)), (σ, self))) as Hcands.
  { erewrite bind_ok; [|by apply in_world_deref_cands].
    erewrite bind_ok; [|by apply in_world_deref_cands].
    reflexivity. }
  assert (cache_miss tc gl (σ, self)
    = (if bool_decide (cs ≠ cs0) then ret true
       else g <- in_world (deref_array gl) ;;
            gv0 <- in_world (deref_array g0) ;;
            ne <- lift_result (np_ne g gv0) ;; ret (py_any ne)) (σ, self))
    as Hstep.
  { unfold cache_miss. erewrite bind_ok; [|reflexivity]. cbn [snd].
    rewrite HX, Hl0, Hg0. erewrite bind_ok; [|exact Hcands]. reflexivity. }
  split.
  - intros Hne. rewrite Hstep. by rewrite bool_decide_true.
  - intros g gv0 Hg Hgv0 Heq. rewrite Hstep.
    rewrite bool_decide_false by (by intros ?).
    erewrite bind_ok; [|by apply in_world_deref_array].
    erewrite bind_ok; [|by apply in_world_deref_array].
    unfold bind, lift_result, ret. by destruct (np_ne g gv0).
Qed.

(** Element-wise comparison of arrays of one length. *)
Lemma np_ne_same_length (a b : list Z) :
  length a = length b →
  ∃ ne, np_ne a b = Ok ne ∧ (py_any ne = true ↔ a ≠ b).
Proof.
  intros Hlen. unfold np_ne. rewrite decide_True by done.
  eexists. split; [reflexivity|].
  revert b Hlen. induction a as [|x a IH]; intros [|y b] Hlen; try done.
  cbn. injection Hlen as Hlen. specialize (IH b Hlen).
  rewrite orb_true_iff, IH. unfold id. destruct (Z.eqb_spec x y) as [->|Hxy]; cbn.
  - split; [intros [?|?]; [done|congruence]|]. intros Hne. right. congruence.
  - split; [congruence|auto].
Qed.

(** The cached block, in closed form. *)
Lemma refresh_cache_run (tc gl : loc) σ self :
  refresh_cache tc gl (σ, self)
  = (let self1 := set_gold_labels (Some gl)
                    (set_test_candidates (Some tc) self) in
     let '(r, σ') := transform (training_set self) tc false σ in
     match r with
     | Raise e => (Raise e, (σ', self1))
     | Ok LF =>
         match set_model_X (cls self) LF.1 LF.2 with
         | Raise e => (Raise e, (σ', self1))
         | Ok X => (Ok tt, (σ', set_X_test (Some X) self1))
         end
     end).
Proof.
  unfold refresh_cache.
  erewrite bind_ok; [|reflexivity]. erewrite bind_ok; [|reflexivity].
  erewrite bind_ok; [|reflexivity].
  cbn [fst snd training_set set_gold_labels set_test_candidates cls].
  unfold bind. rewrite in_world_run.
  destruct (transform (training_set self) tc false σ) as [[LF|e] σ']; [|done].
  cbn [fst snd]. unfold lift_result.
  by destruct (set_model_X (cls self) LF.1 LF.2).
Qed.

Lemma bind_ok_inv {St A B} (m : Py St A) (k : A → Py St B) s b s' :
  bind m k s = (Ok b, s') → ∃ a s1, m s = (Ok a, s1) ∧ k a s1 = (Ok b, s').
Proof. unfold bind. destruct (m s) as [[a|e] s1]; [eauto|done]. Qed.

Lemma preserves_in_world {A} (m : Py World A) :
  preserves calm m → preserves quiet (in_world m).
Proof.
  intros Hm [σ self]. rewrite in_world_run. split; [done|]. apply Hm.
Qed.

Lemma preserves_call_test_scores p gold :
  preserves calm (call_test_scores p gold).
Proof.
  apply preserves_bind; [apply _|by apply preserves_log|].
  intros _. apply preserves_lift_result, _.
Qed.

Lemma preserves_call_calibration_plots a b gold :
  preserves calm (call_calibration_plots a b gold).
Proof.
  apply preserves_bind; [apply _|by apply preserves_log|].
  intros _. apply preserves_lift_result, _.
Qed.

(** Scoring and plotting leave the learner and the data alone and never enter
    [transform]. *)
Lemma score_and_plot_quiet (gl : loc) (sp : bool) :
  preserves quiet (score_and_plot gl sp).
Proof.
  unfold score_and_plot.
  apply preserves_bind; [apply _|apply preserves_gets, _|]. intros self.
  apply preserves_bind;
    [apply _|by apply preserves_in_world, preserves_call_model|]. intros p.
  apply preserves_bind;
    [apply _|apply preserves_in_world, preserves_deref_array|]. intros g.
  apply preserves_bind;
    [apply _|apply preserves_in_world, preserves_call_test_scores|]. intros _.
  destruct sp; [|apply preserves_ret, _].
  apply preserves_bind;
    [apply _|by apply preserves_in_world, preserves_call_model|]. intros a.
  apply preserves_bind;
    [apply _|by apply preserves_in_world, preserves_call_model|]. intros b.
  apply preserves_bind;
    [apply _|apply preserves_in_world, preserves_deref_array|]. intros g'.
  apply preserves_in_world, preserves_call_calibration_plots.
Qed.

Global Instance steady_preorder : PreOrder steady.
Proof. split; [by intros σ|]. unfold steady. intros σ1 σ2 σ3. congruence. Qed.

Global Instance on_world_preorder (R : relation World) `{!PreOrder R} :
  PreOrder (on_world R).
Proof.
  split; [intros s; unfold on_world; reflexivity|].
  intros s1 s2 s3. unfold on_world. apply transitivity.
Qed.









(** ** Learner.test: the cache *)

Lemma transform_ok_cands lfs (fzo : option loc) (l : loc) (fit : bool) σ LF σ' :
  TrainingSet_transform lfs fzo l fit σ = (Ok LF, σ') →
  is_Some (cand_lists σ !! l).
Proof.
  unfold TrainingSet_transform. intros Hrun.
  apply bind_ok_inv in Hrun as ([] & σ1 & [= <-] & Hrun).
  apply bind_ok_inv in Hrun as (L & σ2 & Happly & _).
  unfold TrainingSet_apply_lfs in Happly.
  apply bind_ok_inv in Happly as (cs & σ3 & Hderef & _).
  unfold deref_cands in Hderef. cbn [log cand_lists] in Hderef.
  destruct (cand_lists σ !! l); [eauto|done].
Qed.

Lemma transform_ok_L lfs (fzo : option loc) (l : loc) (fit : bool) cs σ L F σ' :
  cand_lists σ !! l = Some cs →
  TrainingSet_transform lfs fzo l fit σ = (Ok (L, F), σ') →
  L = label_matrix lfs cs.
Proof.
  intros Hl Ht. unfold TrainingSet_transform in Ht.
  apply bind_ok_inv in Ht as ([] & σ2 & [= <-] & Ht).
  apply bind_ok_inv in Ht as (L' & σ3 & Happly & Ht).
  rewrite (apply_lfs_run lfs l cs) in Happly by done. injection Happly as <- <-.
  by apply bind_ok_inv in Ht as (F' & σ4 & _ & [= <- _ _]).
Qed.

(** Whatever happens in the cached block, it enters [transform] once, keeps
    the data, and assigns to no field other than the three cache fields. *)
Lemma refresh_cache_effect (tc gl : loc) s :
  let s' := (refresh_cache tc gl s).2 in
  same_outside_cache s.2 s'.2 ∧ same_data s.1 s'.1 ∧
  transform_runs (trace s'.1) = S (transform_runs (trace s.1)).
Proof.
  destruct s as [σ self]. rewrite refresh_cache_run. cbn zeta.
  pose proof (transform_enters_once (lfs (training_set self))
                (featurizer (training_set self)) tc false σ) as Henter.
  cbn zeta in Henter. unfold transform.
  destruct (TrainingSet_transform _ _ tc false σ) as [[LF|e] σ'];
    cbn [snd] in Henter; destruct Henter as [Hdata Hruns].
  - destruct (set_model_X (cls self) LF.1 LF.2); cbn;
      (split; [by unfold same_outside_cache|by split]).
  - cbn. split; [by unfold same_outside_cache|by split].
Qed.

Lemma refresh_cache_ok (tc gl : loc) s s' :
  refresh_cache tc gl s = (Ok tt, s') →
  test_candidates s'.2 = Some tc ∧ gold_labels s'.2 = Some gl ∧
  is_Some (X_test s'.2) ∧ is_Some (cand_lists s.1 !! tc).
Proof.
  destruct s as [σ self]. rewrite refresh_cache_run. cbn zeta. unfold transform.
  destruct (TrainingSet_transform _ _ tc false σ) as [[LF|e] σ'] eqn:Ht; [|done].
  apply transform_ok_cands in Ht.
  destruct (set_model_X (cls self) LF.1 LF.2) as [X|e]; [|done].
  intros [= <-]. cbn. eauto.
Qed.

Lemma test_after_hit (tc gl : loc) (sp : bool) s :
  cache_miss tc gl s = (Ok false, s) →
  Learner_test tc gl sp s = score_and_plot gl sp s.
Proof.
  intros Hhit. unfold Learner_test. erewrite bind_ok; [|exact Hhit]. reflexivity.
Qed.

Lemma test_after_miss (tc gl : loc) (sp : bool) s :
  cache_miss tc gl s = (Ok true, s) →
  Learner_test tc gl sp s = (refresh_cache tc gl ;;; score_and_plot gl sp) s.
Proof.
  intros Hmiss. unfold Learner_test. erewrite bind_ok; [|exact Hmiss].
  reflexivity.
Qed.

Lemma cache_miss_verdict (tc gl : loc) s r :
  (cache_miss tc gl s).1 = r → cache_miss tc gl s = (r, s).
Proof.
  intros <-. pose proof (cache_miss_state tc gl s) as Hs.
  destruct (cache_miss tc gl s) as [r s']. cbn in *. by subst.
Qed.


(** C10: [test] assigns to no field of the learner other than
    [test_candidates], [gold_labels] and [X_test]; it assigns to these only
    when the guard of the cache evaluates to true; and when the cache is
    populated, the candidates equal the cached candidates and the gold labels
    equal the cached gold labels, the learner after the call is the learner
    before it, whether the call returns or raises. *)
Theorem test_frame s (tc gl : loc) (sp : bool) r s' :
  Learner_test tc gl sp s = (r, s') →
  same_outside_cache s.2 s'.2 ∧
  ((cache_miss tc gl s).1 ≠ Ok true → s'.2 = s.2) ∧
  (∀ X (l0 g0 : loc) cs g,
     X_test s.2 = Some X →
     test_candidates s.2 = Some l0 → gold_labels s.2 = Some g0 →
     cand_lists s.1 !! tc = Some cs → cand_lists s.1 !! l0 = Some cs →
     arrays s.1 !! gl = Some g → arrays s.1 !! g0 = Some g →
     s'.2 = s.2).
Proof.
  intros Hrun.
  assert ((cache_miss tc gl s).1 ≠ Ok true → s'.2 = s.2) as Hkept.
  { intros Hverdict. revert Hrun. unfold Learner_test, bind at 1.
    pose proof (cache_miss_state tc gl s) as Hs.
    destruct (cache_miss tc gl s) as [[[|]|e] s1]; cbn [fst snd] in *; subst s1.
    - done.
    - unfold bind, ret.
      pose proof (score_and_plot_quiet gl sp s) as [Hself _].
      destruct (score_and_plot gl sp s) as [r' s2]. by intros [= _ <-].
    - by intros [= _ <-]. }
  split; [|split; [exact Hkept|]].
  - destruct (cache_miss tc gl s).1 as [[|]|e] eqn:Hmiss;
      [|by rewrite Hkept..].
    apply cache_miss_verdict in Hmiss.
    rewrite (test_after_miss _ _ _ _ Hmiss) in Hrun. revert Hrun. unfold bind.
    pose proof (refresh_cache_effect tc gl s) as (Hframe & _).
    cbn zeta in Hframe.
    destruct (refresh_cache tc gl s) as [[[]|e] sa]; cbn [snd] in Hframe.
    + pose proof (score_and_plot_quiet gl sp sa) as [Hself _].
      destruct (score_and_plot gl sp sa) as [r' s2]. intros [= _ <-].
      cbn [snd] in Hself. by rewrite Hself.
    + by intros [= _ <-].
  - intros X l0 g0 cs g HX Hl0 Hg0 Hcs Hcs0 Hg Hgv0. apply Hkept.
    destruct s as [σ self]. cbn [fst snd] in *.
    destruct (cache_miss_run tc gl l0 g0 σ self X cs cs HX Hl0 Hg0 Hcs Hcs0)
      as [_ Hsame].
    rewrite (Hsame g g Hg Hgv0 eq_refl).
    destruct (np_ne_same_length g g eq_refl) as (ne & -> & Hany). cbn.
    intros [= Hne]. by destruct (proj1 Hany Hne).
Qed.

(** ** Remarks *)

(** The label matrix returned by a [transform] that returns. *)
(** X20: from construction to construction.  A learner built over a training
    set that was itself built from the candidates [cs] and the labeling
    functions [lfs] has [L_train] equal to their label matrix, [n_train =
    len(cs)] and [m = len(lfs)]. *)
Lemma built_learner_dims lfs (l : loc) cs (fzo : option loc) σ ts σ'
    (c : learner_class) (mdl : option loc) self :
  cand_lists σ !! l = Some cs →
  TrainingSet_init l lfs fzo σ = (Ok ts, σ') →
  Learner_init c ts mdl = Ok self →
  L_train self = label_matrix lfs cs ∧
  ts_L ts = label_matrix lfs cs ∧
  n_train self = length cs ∧ lr_m self = length lfs.
Proof.
  intros Hl Hinit Hlearner. unfold TrainingSet_init in Hinit.
  apply bind_ok_inv in Hinit as ([L F] & σ1 & Ht & [= <- _]).
  apply (transform_ok_L _ _ _ _ cs) in Ht as ->; [|done].
  apply Learner_init_dims in Hlearner as (_ & _ & _ & HL & _ & Hshape & _).
  cbn in Hshape, HL. injection Hshape as -> ->. by rewrite HL.
Qed.

(** The cache holds references.  When [test] is called again with the very
    objects it cached, the guard compares each object with itself: whatever
    the lists and arrays contain by then, the call is a hit. *)
Lemma cache_hit_on_same_objects (tc gl : loc) σ self X cs (g : list Z) :
  X_test self = Some X →
  test_candidates self = Some tc → gold_labels self = Some gl →
  cand_lists σ !! tc = Some cs → arrays σ !! gl = Some g →
  cache_miss tc gl (σ, self) = (Ok false, (σ, self)).
Proof.
  intros HX Htc Hgl Hcs Hg.
  destruct (cache_miss_run tc gl tc gl σ self X cs cs HX Htc Hgl Hcs Hcs)
    as [_ Hsame].
  rewrite (Hsame g g Hg Hg eq_refl).
  destruct (np_ne_same_length g g eq_refl) as (ne & -> & Hany).
  destruct (py_any ne); [|done]. by destruct (proj1 Hany eq_refl).
Qed.

(** * Further properties *)

(** ** Framing, in general *)

Section framing.
Context (R : relation World) (okev : event → Prop) (okm okf : loc → Prop).
Context `{!Framing R okev okm okf}.

Lemma framed_log ev : okev ev → preserves R (modify (log ev)).
Proof. intros Hev σ. by apply framing_log. Qed.

Lemma framed_deref_cands (l : loc) : preserves R (deref_cands l).
Proof. intros σ. unfold deref_cands. by destruct (cand_lists σ !! l). Qed.

Lemma framed_deref_array (l : loc) : preserves R (deref_array l).
Proof. intros σ. unfold deref_array. by destruct (arrays σ !! l). Qed.

Lemma framed_call_lf (i j : nat) (lf : LF) c :
  okev (EvLF i j) → preserves R (call_lf i j lf c).
Proof.
  intros Hev. apply preserves_bind; [apply _|by apply framed_log|].
  intros _. apply preserves_ret, _.
Qed.

Lemma framed_call_featurizer meth ev (fz : loc) cs :
  okev (ev fz cs) → okf fz → preserves R (call_featurizer meth ev fz cs).
Proof.
  intros Hev Hfz σ. unfold call_featurizer.
  destruct (featurizers σ !! fz) as [o|]; [|done].
  destruct (meth o cs) as [r o']. cbn [snd].
  etrans; [by apply framing_log|by apply framing_featurizer].
Qed.

Lemma framed_call_model {A} (meth : Model → result A * Model) ev
    (mdl : option loc) :
  (∀ l : loc, mdl = Some l → okev (ev l) ∧ okm l) →
  preserves R (call_model meth ev mdl).
Proof.
  intros Hok σ. unfold call_model. destruct mdl as [l|]; [|done].
  destruct (models σ !! l) as [o|]; [|done].
  destruct (meth o) as [r o']. cbn [snd]. destruct (Hok l eq_refl).
  etrans; [by apply framing_log|by apply framing_model].
Qed.

Lemma framed_logged {A} ev (r : result A) :
  okev ev → preserves R (modify (log ev) ;;; lift_result r).
Proof.
  intros Hev. apply preserves_bind; [apply _|by apply framed_log|].
  intros _. apply preserves_lift_result, _.
Qed.

Lemma framed_apply_lfs lfs (l : loc) :
  (∀ i j, okev (EvLF i j)) → preserves R (TrainingSet_apply_lfs lfs l).
Proof.
  intros Hev. unfold TrainingSet_apply_lfs.
  apply preserves_bind; [apply _|apply framed_deref_cands|]. intros cs.
  apply preserves_bind; [apply _| |intros X; apply preserves_ret, _].
  apply preserves_for_enumerate; [apply _|]. intros i c X.
  apply preserves_for_enumerate; [apply _|]. intros j lf X'.
  apply preserves_bind; [apply _|by apply framed_call_lf|].
  intros v. apply preserves_lift_result, _.
Qed.

Lemma framed_transform lfs (fzo : option loc) (l : loc) (fit : bool) :
  (∀ s, okev (EvPrint s)) →
  (∀ i j, okev (EvLF i j)) →
  (∀ (fz : loc) cs, fzo = Some fz →
     okev (if fit then EvFitTransform fz cs else EvTransform fz cs)) →
  (∀ fz : loc, fzo = Some fz → okf fz) →
  preserves R (TrainingSet_transform lfs fzo l fit).
Proof.
  intros Hprint Hlf Hfz Hokf. unfold TrainingSet_transform.
  apply preserves_bind; [apply _|by apply framed_log|]. intros _.
  apply preserves_bind; [apply _|by apply framed_apply_lfs|]. intros L.
  apply preserves_bind; [apply _| |intros F; apply preserves_ret, _].
  destruct fzo as [fz|]; [|apply preserves_ret, _].
  apply preserves_bind; [apply _|by apply framed_log|]. intros _.
  apply preserves_bind; [apply _|apply framed_deref_cands|]. intros cs.
  apply preserves_bind; [apply _| |intros F; apply preserves_ret, _].
  specialize (Hfz fz cs eq_refl).
  destruct fit; apply framed_call_featurizer; auto.
Qed.

Lemma framed_score_world self (gl : loc) (sp : bool) :
  (∀ (l : loc) oX, model self = Some l → okev (EvPredict l oX)) →
  (∀ (l : loc) oX, model self = Some l → okev (EvMarginals l oX)) →
  (∀ p g, okev (EvTestScores p g)) →
  (∀ a b g, okev (EvCalibrationPlots a b g)) →
  (∀ l : loc, model self = Some l → okm l) →
  preserves R (score_world self gl sp).
Proof.
  intros Hpred Hmarg Hscore Hplot Hokm. unfold score_world.
  apply preserves_bind; [apply _|apply framed_call_model; auto|]. intros p.
  apply preserves_bind; [apply _|apply framed_deref_array|]. intros g.
  apply preserves_bind; [apply _|by apply framed_logged|]. intros _.
  destruct sp; [|apply preserves_ret, _].
  apply preserves_bind; [apply _|apply framed_call_model; auto|]. intros a.
  apply preserves_bind; [apply _|apply framed_call_model; auto|]. intros b.
  apply preserves_bind; [apply _|apply framed_deref_array|]. intros g'.
  by apply framed_logged.
Qed.

End framing.

Lemma count_events_app (P : event → bool) (t t' : list event) :
  count_events P (t ++ t') = count_events P t + count_events P t'.
Proof. unfold count_events. by rewrite List.filter_app, length_app. Qed.

Global Instance keeps_framing (P : event → bool) :
  Framing (keeps P) (λ ev, P ev = false) (λ _, True) (λ _, True).
Proof.
  split.
  - split; [by intros σ|]. unfold keeps. intros σ1 σ2 σ3. congruence.
  - intros ev σ Hev. unfold keeps. cbn [log trace]. rewrite count_events_app.
    unfold count_events at 2. cbn [List.filter]. rewrite Hev. cbn. lia.
  - done.
  - done.
Qed.

(** ** Learner.test in closed form *)

Lemma in_world_bind {A B} (m : Py World A) (k : A → Py World B) s :
  in_world (bind m k) s = bind (in_world m) (λ a, in_world (k a)) s.
Proof.
  destruct s as [σ self]. unfold in_world, bind. cbn.
  by destruct (m σ) as [[a|e] σ'].
Qed.

Lemma bind_ext {St A B} (m : Py St A) (k k' : A → Py St B) s :
  (∀ a s1, k a s1 = k' a s1) → bind m k s = bind m k' s.
Proof. intros Hk. unfold bind. destruct (m s) as [[a|e] s1]; [apply Hk|done]. Qed.

Lemma score_and_plot_in_world (gl : loc) (sp : bool) σ self :
  score_and_plot gl sp (σ, self) = in_world (score_world self gl sp) (σ, self).
Proof.
  unfold score_and_plot, score_world.
  erewrite bind_ok; [|reflexivity]. cbn [snd].
  rewrite in_world_bind. apply bind_ext. intros p s1.
  rewrite in_world_bind. apply bind_ext. intros g s2.
  rewrite in_world_bind. apply bind_ext. intros [] s3.
  destruct sp; [|by destruct s3].
  rewrite in_world_bind. apply bind_ext. intros a s4.
  rewrite in_world_bind. apply bind_ext. intros b s5.
  rewrite in_world_bind. apply bind_ext. intros g' s6. done.
Qed.

(** Whatever [test] does to the heap is made of a [transform] with
    [fit=False] by the training set's featurizer and of scoring with the
    learner's model. *)
Lemma framed_test (R : relation World) (okev : event → Prop)
    (okm okf : loc → Prop) `{!Framing R okev okm okf}
    (tc gl : loc) (sp : bool) σ self :
  (∀ s, okev (EvPrint s)) →
  (∀ i j, okev (EvLF i j)) →
  (∀ (fz : loc) cs, featurizer (training_set self) = Some fz →
     okev (EvTransform fz cs)) →
  (∀ (l : loc) oX, model self = Some l → okev (EvPredict l oX)) →
  (∀ (l : loc) oX, model self = Some l → okev (EvMarginals l oX)) →
  (∀ p g, okev (EvTestScores p g)) →
  (∀ a b g, okev (EvCalibrationPlots a b g)) →
  (∀ l : loc, model self = Some l → okm l) →
  (∀ fz : loc, featurizer (training_set self) = Some fz → okf fz) →
  R σ (Learner_test tc gl sp (σ, self)).2.1.
Proof.
  intros Hprint Hlf Htr Hpred Hmarg Hts Hplot Hokm Hokf.
  assert (∀ selfa, model selfa = model self →
            R σ (score_and_plot gl sp (σ, selfa)).2.1 ∧
            ∀ σa, R σ σa → R σ (score_and_plot gl sp (σa, selfa)).2.1)
    as Hscore.
  { intros selfa Hmodel.
    assert (∀ σa, R σa (score_and_plot gl sp (σa, selfa)).2.1) as Hstep.
    { intros σa. rewrite score_and_plot_in_world, in_world_run. cbn [fst snd].
      apply (framed_score_world R okev okm okf); rewrite ?Hmodel; done. }
    split; [apply Hstep|]. intros σa Ha. etrans; [exact Ha|apply Hstep]. }
  unfold Learner_test, bind at 1.
  pose proof (cache_miss_state tc gl (σ, self)) as Hs.
  destruct (cache_miss tc gl (σ, self)) as [[[|]|e] s1]; cbn [snd] in Hs; subst s1.
  - unfold bind. rewrite refresh_cache_run. cbn zeta. unfold transform.
    pose proof (framed_transform R okev okm okf (lfs (training_set self))
                  (featurizer (training_set self)) tc false
                  Hprint Hlf Htr Hokf σ) as Ht.
    destruct (TrainingSet_transform _ _ tc false σ) as [[LF|e] σ'];
      cbn [snd] in Ht; [|exact Ht].
    destruct (set_model_X (cls self) LF.1 LF.2) as [X|e]; [|exact Ht].
    by apply Hscore.
  - unfold bind, ret. by apply Hscore.
  - cbn. reflexivity.
Qed.

(** ** What transform and test leave alone *)

(** X1: the calls that [TrainingSet.transform] makes, whether it returns or
    raises: none on a model ([train], [predict] or [marginals]), none on a
    featurizer other than the training set's own, and on that one only the
    method that [fit] selects: never [transform] when [fit] is true, never
    [fit_transform] when it is false. *)
Theorem transform_calls_only_its_featurizer lfs (fzo : option loc) (l : loc)
    (fit : bool) σ :
  let σ' := (TrainingSet_transform lfs fzo l fit σ).2 in
  count_events is_train (trace σ') = count_events is_train (trace σ) ∧
  count_events is_predict (trace σ') = count_events is_predict (trace σ) ∧
  count_events is_marginals (trace σ') = count_events is_marginals (trace σ) ∧
  count_events (is_other_featurizer fzo) (trace σ')
    = count_events (is_other_featurizer fzo) (trace σ) ∧
  count_events (if fit then is_fz_transform else is_fit) (trace σ')
    = count_events (if fit then is_fz_transform else is_fit) (trace σ).
Proof.
  intros σ'.
  assert (∀ P : event → bool,
            (∀ (fz : loc) cs, fzo = Some fz →
               P (if fit then EvFitTransform fz cs else EvTransform fz cs)
               = false) →
            (∀ s, P (EvPrint s) = false) → (∀ i j, P (EvLF i j) = false) →
            count_events P (trace σ') = count_events P (trace σ)) as Hkeeps.
  { intros P Hfz Hprint Hlf.
    by apply (framed_transform (keeps P) (λ ev, P ev = false)
                (λ _, True) (λ _, True)). }
  split; [|split; [|split; [|split]]]; apply Hkeeps; try done.
  - intros fz cs _. by destruct fit.
  - intros fz cs _. by destruct fit.
  - intros fz cs _. by destruct fit.
  - intros fz cs ->. destruct fit; cbn; by rewrite bool_decide_true.
  - intros fz cs _. by destruct fit.
  - intros s. by destruct fit.
  - intros i j. by destruct fit.
Qed.

(** X2: the calls that [Learner.test] makes, whether it returns or raises:
    none on a model other than the learner's own [model], and none on a
    featurizer other than the one of its training set. *)
Theorem test_calls_only_its_own_objects (tc gl : loc) (sp : bool) σ self :
  let σ' := (Learner_test tc gl sp (σ, self)).2.1 in
  count_events (is_other_model (model self)) (trace σ')
    = count_events (is_other_model (model self)) (trace σ) ∧
  count_events (is_other_featurizer (featurizer (training_set self))) (trace σ')
    = count_events (is_other_featurizer (featurizer (training_set self)))
        (trace σ).
Proof.
  intros σ'. split.
  - apply (framed_test (keeps (is_other_model (model self)))
             (λ ev, is_other_model (model self) ev = false)
             (λ _, True) (λ _, True)); try done;
      intros l oX ->; cbn; by rewrite bool_decide_true.
  - apply (framed_test
             (keeps (is_other_featurizer (featurizer (training_set self))))
             (λ ev, is_other_featurizer (featurizer (training_set self)) ev
                    = false)
             (λ _, True) (λ _, True)); try done.
    intros fz cs ->. cbn. by rewrite bool_decide_true.
Qed.

(** X3: [Learner.test] never refits the featurizer and never trains a model:
    whatever its arguments and its outcome, it calls neither [fit_transform]
    nor [train]. *)
Theorem test_never_fits_or_trains (tc gl : loc) (sp : bool) σ self :
  let σ' := (Learner_test tc gl sp (σ, self)).2.1 in
  count_events is_fit (trace σ') = count_events is_fit (trace σ) ∧
  count_events is_train (trace σ') = count_events is_train (trace σ).
Proof.
  intros σ'. split.
  - apply (framed_test (keeps is_fit) (λ ev, is_fit ev = false)
             (λ _, True) (λ _, True)); done.
  - apply (framed_test (keeps is_train) (λ ev, is_train ev = false)
             (λ _, True) (λ _, True)); done.
Qed.

(** ** The cache of Learner.test, at its edges *)

(** X4: the cache holds the list and the array it was given, not copies.  After
    a call of [test] that refreshed the cache and returned, whatever the caller
    writes into that list and that array, a call of [test] with the same two
    objects is a hit: it goes straight to scoring on the old [X_test], without
    entering [transform], and leaves the learner as it is. *)
Theorem test_misses_in_place_changes s0 (tc gl : loc) (sp : bool) σ1 self1 :
  (cache_miss tc gl s0).1 = Ok true →
  Learner_test tc gl sp s0 = (Ok tt, (σ1, self1)) →
  ∀ cands' arrs' (sp' : bool),
    is_Some (cands' !! tc) → is_Some (arrs' !! gl) →
    Learner_test tc gl sp' (set_data cands' arrs' σ1, self1)
      = score_and_plot gl sp' (set_data cands' arrs' σ1, self1) ∧
    (Learner_test tc gl sp' (set_data cands' arrs' σ1, self1)).2.2 = self1 ∧
    transform_runs
      (trace (Learner_test tc gl sp' (set_data cands' arrs' σ1, self1)).2.1)
    = transform_runs (trace σ1).
Proof.
  intros Hmiss Hrun cands' arrs' sp' [cs Hcs] [g Hg].
  apply cache_miss_verdict in Hmiss.
  rewrite (test_after_miss _ _ _ _ Hmiss) in Hrun.
  apply bind_ok_inv in Hrun as ([] & [σa selfa] & Hrefresh & Hscore).
  apply refresh_cache_ok in Hrefresh as (Htc & Hgl & [X HX] & _).
  pose proof (score_and_plot_quiet gl sp (σa, selfa)) as [Hself _].
  rewrite Hscore in Hself. cbn [fst snd] in *. subst self1.
  set (s := (set_data cands' arrs' σ1, selfa)).
  assert (cache_miss tc gl s = (Ok false, s)) as Hhit
    by (by apply (cache_hit_on_same_objects tc gl _ selfa X cs g)).
  rewrite (test_after_hit _ _ _ _ Hhit).
  pose proof (score_and_plot_quiet gl sp' s) as [Hself' [_ Hruns]].
  by repeat split.
Qed.

(** X5: the cached block assigns [test_candidates] and [gold_labels] before it
    transforms.  When it then raises (in [transform] or in [_set_model_X]) on a
    learner whose cache was populated, [test] raises the same exception and the
    learner is left with the new arguments next to the old [X_test]; a further
    call with these arguments is then a hit, scored on that old [X_test]. *)
Theorem test_failed_refresh_keeps_old_X_test (tc gl : loc) (sp : bool) σ self
    X e σ' self' cs (g : list Z) :
  X_test self = Some X →
  (cache_miss tc gl (σ, self)).1 = Ok true →
  refresh_cache tc gl (σ, self) = (Raise e, (σ', self')) →
  cand_lists σ !! tc = Some cs → arrays σ !! gl = Some g →
  Learner_test tc gl sp (σ, self) = (Raise e, (σ', self')) ∧
  test_candidates self' = Some tc ∧ gold_labels self' = Some gl ∧
  X_test self' = Some X ∧
  ∀ sp' : bool,
    Learner_test tc gl sp' (σ', self') = score_and_plot gl sp' (σ', self').
Proof.
  intros HX Hmiss Hrefresh Hcs Hg.
  apply cache_miss_verdict in Hmiss.
  pose proof (refresh_cache_effect tc gl (σ, self)) as (_ & [Hc Ha] & _).
  rewrite Hrefresh in Hc, Ha. cbn [fst snd] in Hc, Ha.
  assert (self' = set_gold_labels (Some gl) (set_test_candidates (Some tc) self))
    as ->.
  { revert Hrefresh. rewrite refresh_cache_run. cbn zeta.
    destruct (transform (training_set self) tc false σ) as [[LF|e'] σ''].
    - destruct (set_model_X (cls self) LF.1 LF.2); [done|]. by intros [= _ _ <-].
    - by intros [= _ _ <-]. }
  split.
  { rewrite (test_after_miss _ _ _ _ Hmiss). by erewrite bind_raise. }
  repeat split; try done.
  intros sp'. apply test_after_hit.
  apply (cache_hit_on_same_objects tc gl σ' _ X cs g); try done; congruence.
Qed.

Lemma np_ne_singleton (x : Z) (b : list Z) :
  np_ne [x] b = Ok ((λ y, negb (x =? y)%Z) <$> b).
Proof.
  unfold np_ne. destruct (decide (length [x] = length b)) as [Hlen|Hlen]; [|done].
  destruct b as [|y [|??]]; done.
Qed.

Lemma py_any_fmap_ne (x : Z) (b : list Z) :
  py_any ((λ y, negb (x =? y)%Z) <$> b) = true ↔ ∃ y, y ∈ b ∧ y ≠ x.
Proof.
  unfold py_any. induction b as [|y b IH]; cbn.
  - split; [done|]. intros (y & Hy & _). by apply elem_of_nil in Hy.
  - rewrite orb_true_iff, IH. unfold id. split.
    + intros [Hne|(z & Hz & Hzx)].
      * exists y. split; [by left|]. intros ->. by rewrite Z.eqb_refl in Hne.
      * exists z. split; [by right|done].
    + intros (z & Hz & Hzx). apply elem_of_cons in Hz as [->|Hz].
      * left. destruct (Z.eqb_spec x y); [congruence|done].
      * right. by exists z.
Qed.

(** X6: on a populated cache and with the cached candidates, gold labels whose
    length differs from the cached ones (neither array having length one) make
    [test] raise before anything else happens: no call is made and neither the
    heap nor the learner changes. *)
Theorem test_gold_length_mismatch_raises σ self (tc gl l0 g0 : loc) (sp : bool)
    X cs (g gv0 : list Z) :
  X_test self = Some X →
  test_candidates self = Some l0 → gold_labels self = Some g0 →
  cand_lists σ !! tc = Some cs → cand_lists σ !! l0 = Some cs →
  arrays σ !! gl = Some g → arrays σ !! g0 = Some gv0 →
  length g ≠ length gv0 → length g ≠ 1 → length gv0 ≠ 1 →
  ∃ e, Learner_test tc gl sp (σ, self) = (Raise e, (σ, self)).
Proof.
  intros HX Hl0 Hg0 Hcs Hcs0 Hg Hgv0 Hlen Hg1 Hgv1.
  destruct (cache_miss_run tc gl l0 g0 σ self X cs cs HX Hl0 Hg0 Hcs Hcs0)
    as [_ Hsame].
  specialize (Hsame g gv0 Hg Hgv0 eq_refl).
  assert (np_ne g gv0 = Raise TypeError) as Hne.
  { unfold np_ne. rewrite decide_False by done.
    destruct g as [|x [|??]], gv0 as [|y [|??]]; done. }
  rewrite Hne in Hsame. exists TypeError.
  unfold Learner_test. by erewrite bind_raise.
Qed.

(** X7: numpy broadcasts a one-element array.  On a populated cache and with
    the cached candidates, a gold label array of length one is a hit exactly
    when every cached gold label equals its element, whatever the length of
    the cached array (so always, when the cached array is empty); otherwise
    the cached block runs again. *)
Theorem test_single_gold_label_is_broadcast σ self (tc gl l0 g0 : loc)
    (sp : bool) X cs (x : Z) (gv0 : list Z) :
  X_test self = Some X →
  test_candidates self = Some l0 → gold_labels self = Some g0 →
  cand_lists σ !! tc = Some cs → cand_lists σ !! l0 = Some cs →
  arrays σ !! gl = Some [x] → arrays σ !! g0 = Some gv0 →
  ((∀ y, y ∈ gv0 → y = x) →
   Learner_test tc gl sp (σ, self) = score_and_plot gl sp (σ, self)) ∧
  ((∃ y, y ∈ gv0 ∧ y ≠ x) →
   Learner_test tc gl sp (σ, self)
   = (refresh_cache tc gl ;;; score_and_plot gl sp) (σ, self)).
Proof.
  intros HX Hl0 Hg0 Hcs Hcs0 Hg Hgv0.
  destruct (cache_miss_run tc gl l0 g0 σ self X cs cs HX Hl0 Hg0 Hcs Hcs0)
    as [_ Hsame].
  specialize (Hsame [x] gv0 Hg Hgv0 eq_refl).
  rewrite np_ne_singleton in Hsame.
  pose proof (py_any_fmap_ne x gv0) as Hany. split.
  - intros Hall. apply test_after_hit. rewrite Hsame.
    destruct (py_any _); [|done].
    destruct (proj1 Hany eq_refl) as (y & Hy & Hyx). by destruct (Hyx (Hall y Hy)).
  - intros Hex. apply test_after_miss. rewrite Hsame.
    by rewrite (proj2 Hany Hex).
Qed.

(** ** Training, at its edges *)

(** [Learner.train] in closed form. *)
Lemma Learner_train_run (lf_w0 feat_w0 : Scalar) (hp : Hyper) σ self :
  Learner_train lf_w0 feat_w0 hp (σ, self)
  = match set_model_X (cls self) (L_train self) (Some (F_train self)) with
    | Raise e => (Raise e, (σ, self))
    | Ok X =>
        let run := call_train (model self) X None
                     (replicate (lr_m self) lf_w0 ++
                      replicate (lr_f self) feat_w0) hp σ in
        (match run.1 with Ok _ => Ok tt | Raise e => Raise e end,
         (run.2, set_X_train (Some X) self))
    end.
Proof.
  unfold Learner_train. erewrite bind_ok; [|reflexivity]. cbn [snd].
  unfold np_concatenate. cbn [concat]. rewrite !scale_ones, app_nil_r.
  destruct (set_model_X (cls self) (L_train self) (Some (F_train self)))
    as [X|e]; [|done].
  erewrite bind_ok; [|reflexivity]. erewrite bind_ok; [|reflexivity].
  erewrite bind_ok; [|reflexivity]. cbn [snd set_X_train model].
  unfold bind. rewrite in_world_run. cbn zeta. cbn [fst snd].
  destruct (call_train _ _ _ _ _ σ) as [[r|e] σ']; reflexivity.
Qed.

(** X8: a joint learner constructed without a model ([model=None], the
    default) cannot be trained: [train] builds and assigns [X_train] and then
    raises [AttributeError], having called nothing and changed nothing in the
    heap. *)
Theorem Learner_train_without_model (lf_w0 feat_w0 : Scalar) (hp : Hyper) σ self :
  cls self = JointLearner →
  model self = None →
  (shape (L_train self)).1 = (shape (F_train self)).1 →
  Learner_train lf_w0 feat_w0 hp (σ, self)
  = (Raise AttributeError,
     (σ, set_X_train (Some (hstack_of (L_train self) (F_train self))) self)).
Proof.
  intros Hcls Hmodel Hrows. rewrite Learner_train_run, Hcls. cbn [set_model_X].
  unfold Learner_set_model_X. rewrite hstack_csc_run by done.
  by rewrite Hmodel.
Qed.

Lemma hstack_csc_under (A B : matrix) :
  (shape A).1 = 0 → (shape B).1 ≠ 0 →
  hstack_csc A (Some B) = Ok (hstack_under A B).
Proof.
  intros HA HB. unfold hstack_csc.
  rewrite decide_False by congruence. by rewrite decide_True.
Qed.

(** X9: rows that do not match.  When the label matrix of a joint learner has
    at least one row and the feature matrix another number of rows, [train]
    raises [ValueError] from the concatenation: [X_train] is not assigned and
    the model is not called.  When the label matrix has no row at all (a
    learner over no candidates) and the feature matrix has some, nothing is
    raised there: the concatenation takes the rows of the feature matrix,
    [train] assigns it to [X_train] (so [X_train] has more rows than
    [n_train]) and goes on to call the model with it. *)
Theorem Learner_train_row_mismatch (lf_w0 feat_w0 : Scalar) (hp : Hyper) σ self :
  cls self = JointLearner →
  (shape (L_train self)).1 ≠ (shape (F_train self)).1 →
  ((shape (L_train self)).1 ≠ 0 →
   Learner_train lf_w0 feat_w0 hp (σ, self) = (Raise ValueError, (σ, self))) ∧
  ((shape (L_train self)).1 = 0 →
   let X := hstack_under (L_train self) (F_train self) in
   let run := call_train (model self) X None
                (replicate (lr_m self) lf_w0 ++ replicate (lr_f self) feat_w0)
                hp σ in
   Learner_train lf_w0 feat_w0 hp (σ, self)
   = (match run.1 with Ok _ => Ok tt | Raise e => Raise e end,
      (run.2, set_X_train (Some X) self)) ∧
   X_train (Learner_train lf_w0 feat_w0 hp (σ, self)).2.2 = Some X ∧
   (shape X).1 = (shape (F_train self)).1).
Proof.
  intros Hcls Hrows. split.
  - intros Hsome. rewrite Learner_train_run, Hcls. cbn [set_model_X].
    unfold Learner_set_model_X, hstack_csc. by rewrite !decide_False.
  - intros Hnone X run.
    assert (Learner_train lf_w0 feat_w0 hp (σ, self)
            = (match run.1 with Ok _ => Ok tt | Raise e => Raise e end,
               (run.2, set_X_train (Some X) self))) as Hrun.
    { rewrite Learner_train_run, Hcls. cbn [set_model_X].
      unfold Learner_set_model_X.
      by rewrite hstack_csc_under by congruence. }
    split; [exact Hrun|]. by rewrite Hrun.
Qed.

(** X10: [Learner.train], whether it returns or raises, assigns to no field of
    the learner other than [X_train], and makes no call at all or exactly one:
    [train] on the learner's own model, on the matrix it has just stored in
    [X_train], with the hyperparameters it was given. *)
Theorem Learner_train_frame (lf_w0 feat_w0 : Scalar) (hp : Hyper) σ self :
  let s' := (Learner_train lf_w0 feat_w0 hp (σ, self)).2 in
  agree_outside_X_train s'.2 self ∧
  (trace s'.1 = trace σ ∨
   ∃ (l : loc) X tm w0,
     model self = Some l ∧ X_train s'.2 = Some X ∧
     trace s'.1 = trace σ ++ [EvTrain l X tm w0 hp]).
Proof.
  rewrite Learner_train_run. cbn zeta.
  destruct (set_model_X (cls self) (L_train self) (Some (F_train self)))
    as [X|e].
  2:{ cbn. split; [by unfold agree_outside_X_train|by left]. }
  cbn [fst snd]. unfold call_train, call_model.
  destruct (model self) as [l|] eqn:Hmodel.
  2:{ cbn. split; [by unfold agree_outside_X_train|by left]. }
  destruct (models σ !! l) as [o|].
  2:{ cbn. split; [by unfold agree_outside_X_train|by left]. }
  destruct (model_train o X None _ hp) as [r o']. cbn.
  split; [by unfold agree_outside_X_train|]. right.
  by exists l, X, None,
    (replicate (lr_m self) lf_w0 ++ replicate (lr_f self) feat_w0).
Qed.

(** X11: training twice assigns the same [X_train]: after one call of
    [Learner.train], a second call, with whatever initial weights and
    hyperparameters, leaves the learner object as the first call left it. *)
Theorem Learner_train_again_same_learner (lf_w0 feat_w0 lf_w0' feat_w0' : Scalar)
    (hp hp' : Hyper) s0 :
  let s1 := (Learner_train lf_w0 feat_w0 hp s0).2 in
  (Learner_train lf_w0' feat_w0' hp' s1).2.2 = s1.2.
Proof.
  destruct s0 as [σ self]. cbn zeta. rewrite Learner_train_run.
  destruct (set_model_X (cls self) (L_train self) (Some (F_train self)))
    as [X|e] eqn:HX; cbn [snd fst]; rewrite Learner_train_run;
    cbn [cls L_train F_train set_X_train]; rewrite HX; done.
Qed.

(** X12: when the first stage of [PipelinedLearner.train] raises (the new
    [LogReg] fails to train on the label matrix), the method raises the same
    exception: the learner already points to the new object as its
    [training_model], [X_train] is not assigned, no other call is made, and
    every model object that existed before, the primary model among them, is
    as it was. *)
Theorem PipelinedLearner_train_stage1_failure (feat_w0 lf_w0 : Scalar)
    (hp : Hyper) σ self e tm1 :
  let ltm := fresh (dom (models σ)) in
  let w0_1 := replicate (lr_m self) lf_w0 in
  model_train LogReg (L_train self) None w0_1 hp = (Raise e, tm1) →
  ∃ σ',
    PipelinedLearner_train feat_w0 lf_w0 hp (σ, self)
      = (Raise e, (σ', set_training_model (Some ltm) self)) ∧
    trace σ' = trace σ ++ [EvTrain ltm (L_train self) None w0_1 hp] ∧
    models σ' = <[ltm := tm1]> (models σ) ∧
    (∀ (l : loc) o, models σ !! l = Some o → models σ' !! l = Some o) ∧
    PipelinedLearner_lf_weights (σ', set_training_model (Some ltm) self)
      = (attr_w tm1, (σ', set_training_model (Some ltm) self)).
Proof.
  intros ltm w0_1 Htrain.
  set (σa := store_model ltm LogReg σ).
  set (σb := store_model ltm tm1 (log (EvTrain ltm (L_train self) None w0_1 hp) σa)).
  exists σb. split; [|split; [done|split; [|split]]].
  - unfold PipelinedLearner_train.
    erewrite bind_ok; [|reflexivity]. cbn [snd]. rewrite !scale_ones.
    erewrite bind_ok; [|by rewrite in_world_run].
    erewrite bind_ok; [|reflexivity].
    erewrite bind_ok; [|reflexivity]. cbn [fst snd].
    fold ltm σa w0_1. cbn [training_model set_training_model L_train].
    erewrite bind_raise; [reflexivity|].
    rewrite in_world_run. unfold call_train.
    rewrite (call_model_run _ _ ltm LogReg) by (cbn; by rewrite lookup_insert_eq).
    by rewrite Htrain.
  - cbn. by rewrite insert_insert_eq.
  - intros l o Hl. cbn. rewrite !lookup_insert_ne; [done|..];
      intros Heq; subst l; unfold ltm in Hl; by rewrite fresh_model_loc in Hl.
  - unfold PipelinedLearner_lf_weights. erewrite bind_ok; [|reflexivity].
    cbn [snd training_model set_training_model]. rewrite in_world_run.
    rewrite (read_w_run ltm tm1); [done|]. cbn. by rewrite lookup_insert_eq.
Qed.

(** ** Reading the weights, at the edges *)

(** X13: slicing never raises.  On a joint learner whose model holds a weight
    vector with no more than [m] entries, [lf_weights()] returns the whole
    vector and [feat_weights()] the empty vector. *)
Theorem joint_weights_short_vector σ self (lm : loc) o (w : list Scalar) :
  model self = Some lm →
  models σ !! lm = Some o →
  model_w o = Some w →
  length w ≤ lr_m self →
  Learner_lf_weights (σ, self) = (Ok w, (σ, self)) ∧
  Learner_feat_weights (σ, self) = (Ok [], (σ, self)).
Proof.
  intros Hmodel Ho Hw Hlen.
  assert (read_w (Some lm) σ = (Ok w, σ)) as Hread.
  { rewrite (read_w_run lm o) by done. unfold attr_w. by rewrite Hw. }
  split.
  - unfold Learner_lf_weights. erewrite bind_ok; [|reflexivity]. cbn [snd].
    rewrite Hmodel. erewrite bind_ok; [|by rewrite in_world_run, Hread].
    unfold ret. by rewrite take_ge.
  - unfold Learner_feat_weights. erewrite bind_ok; [|reflexivity]. cbn [snd].
    rewrite Hmodel. erewrite bind_ok; [|by rewrite in_world_run, Hread].
    unfold ret. by rewrite drop_ge.
Qed.

(** X14: on a newly constructed pipelined learner, before [train],
    [lf_weights()] and [lf_accs()] raise [AttributeError] (there is no
    [training_model] yet), whatever model was passed to the constructor. *)
Theorem pipelined_lf_weights_before_train (ts : TrainingSet) (mdl : option loc)
    self σ (odds_to_prob : list Scalar → list Scalar) :
  Learner_init PipelinedLearner ts mdl = Ok self →
  PipelinedLearner_lf_weights (σ, self) = (Raise AttributeError, (σ, self)) ∧
  Learner_lf_accs odds_to_prob (σ, self) = (Raise AttributeError, (σ, self)).
Proof.
  intros Hinit.
  assert (cls self = PipelinedLearner ∧ training_model self = None)
    as [Hcls Htm].
  { unfold Learner_init in Hinit. destruct (shape (ts_L ts)).
    destruct (ts_F ts); [|done]. by injection Hinit as <-. }
  assert (PipelinedLearner_lf_weights (σ, self)
          = (Raise AttributeError, (σ, self))) as Hraise.
  { unfold PipelinedLearner_lf_weights. erewrite bind_ok; [|reflexivity].
    cbn [snd]. by rewrite Htm. }
  split; [exact Hraise|].
  unfold Learner_lf_accs. erewrite bind_ok; [|reflexivity]. cbn [snd].
  rewrite Hcls. cbn [lf_weights]. by erewrite bind_raise.
Qed.

(** X15: [lf_accs()] follows the class of the learner.  On a joint learner it
    applies [odds_to_prob] to the first [m] entries of the model's weight
    vector; on a pipelined learner, to the whole weight vector of the
    training model, the primary model's weights playing no part.  Neither
    changes the heap or the learner. *)
Theorem lf_accs_follows_class (odds_to_prob : list Scalar → list Scalar)
    σ self (l : loc) o (w : list Scalar) :
  models σ !! l = Some o →
  model_w o = Some w →
  (cls self = JointLearner → model self = Some l →
   Learner_lf_accs odds_to_prob (σ, self)
   = (Ok (odds_to_prob (take (lr_m self) w)), (σ, self))) ∧
  (cls self = PipelinedLearner → training_model self = Some l →
   Learner_lf_accs odds_to_prob (σ, self) = (Ok (odds_to_prob w), (σ, self))).
Proof.
  intros Ho Hw.
  assert (read_w (Some l) σ = (Ok w, σ)) as Hread.
  { rewrite (read_w_run l o) by done. unfold attr_w. by rewrite Hw. }
  split; intros Hcls Hl; unfold Learner_lf_accs;
    (erewrite bind_ok; [|reflexivity]); cbn [snd]; rewrite Hcls;
    cbn [lf_weights].
  - erewrite bind_ok; [reflexivity|]. unfold Learner_lf_weights.
    erewrite bind_ok; [|reflexivity]. cbn [snd]. rewrite Hl.
    erewrite bind_ok; [reflexivity|]. by rewrite in_world_run, Hread.
  - erewrite bind_ok; [reflexivity|]. unfold PipelinedLearner_lf_weights.
    erewrite bind_ok; [|reflexivity]. cbn [snd]. rewrite Hl.
    by rewrite in_world_run, Hread.
Qed.

(** ** What a cache miss computes *)

(** X16: the cached block of [test], when the featurizer's [transform]
    returns [F].  Every labeling function is applied to every test candidate
    and then the featurizer is called, for either class of learner.  A
    pipelined learner keeps [F] alone (in CSC layout) as [X_test], the label
    matrix being dropped.  A joint learner keeps the label matrix and [F] side
    by side when [F] has one row per candidate; for an empty list of
    candidates it keeps the rows of [F], however many, after a zero per
    labeling function; and when there are candidates and [F] has another
    number of rows the block raises [ValueError], with the new arguments
    already in the cache fields and [X_test] as it was. *)
Theorem refresh_cache_result (tc gl : loc) σ self cs (fz : loc) o F o' :
  cand_lists σ !! tc = Some cs →
  featurizer (training_set self) = Some fz →
  featurizers σ !! fz = Some o →
  fz_transform o cs = (Ok F, o') →
  let lfs' := lfs (training_set self) in
  let σ' := store_featurizer fz o'
              (log_all (labelling_events (length cs) (length lfs') ++
                        [EvPrint "Featurizing..."; EvTransform fz cs]) σ) in
  let self1 := set_gold_labels (Some gl)
                 (set_test_candidates (Some tc) self) in
  refresh_cache tc gl (σ, self)
  = match cls self with
    | PipelinedLearner => (Ok tt, (σ', set_X_test (Some (tocsc F)) self1))
    | JointLearner =>
        if decide (length cs = (shape F).1)
        then (Ok tt, (σ', set_X_test
                            (Some (hstack_of (label_matrix lfs' cs) F)) self1))
        else if decide (length cs = 0)
        then (Ok tt, (σ', set_X_test
                            (Some (hstack_under (label_matrix lfs' cs) F))
                            self1))
        else (Raise ValueError, (σ', self1))
    end.
Proof.
  intros Hcs Hfz Ho HF lfs' σ' self1. subst lfs'.
  rewrite refresh_cache_run. cbn zeta. unfold transform. rewrite Hfz.
  rewrite (transform_run_featurizer _ tc cs σ false fz o) by done.
  rewrite HF. fold σ'. cbn [fst snd].
  destruct (cls self); cbn [set_model_X]; [|done].
  unfold Learner_set_model_X, hstack_csc. cbn [label_matrix shape fst snd].
  destruct (decide (length cs = (shape F).1)); [done|].
  by destruct (decide (length cs = 0)).
Qed.

(** X17: with no candidates, or with no labeling functions, [_apply_lfs] calls
    nothing and returns a matrix without entries, of shape
    [(len(candidates), len(lfs))]. *)
Theorem apply_lfs_nothing_to_label lfs (l : loc) cs σ :
  cand_lists σ !! l = Some cs →
  cs = [] ∨ lfs = [] →
  TrainingSet_apply_lfs lfs l σ
  = (Ok (SpMatrix CSR Float64 (length cs, length lfs)
           (replicate (length cs) [])), σ).
Proof.
  intros Hl Hempty. rewrite (apply_lfs_run lfs l cs) by done.
  assert (lf_calls (length cs) (length lfs) = []) as ->.
  { apply length_zero_iff_nil. rewrite length_lf_calls.
    destruct Hempty as [-> | ->]; cbn; lia. }
  rewrite log_all_nil. unfold label_matrix.
  replace ((λ c, (λ lf : LF, float_of_int (lf c)) <$> lfs) <$> cs)
    with (replicate (length cs) (@nil Scalar)); [done|].
  clear Hl. destruct Hempty as [-> | ->]; [done|].
  induction cs as [|c cs IH]; [done|]. cbn. by rewrite IH.
Qed.

(** X18: what a hit does.  With the cache in place, [test] calls [predict] on
    [X_test] and hands the predictions and the gold labels to [test_scores];
    with [show_plots=False] that is all.  With [show_plots=True] it then asks
    the same model for the marginals of [X_train] and of [X_test], in this
    order, each call finding the model as the previous one left it, and hands
    both to [calibration_plots], whose outcome is the outcome of [test]. *)
Theorem score_and_plot_calls (gl : loc) σ self (lm : loc) o (g : list Z)
    p o1 a o2 b o3 :
  model self = Some lm →
  models σ !! lm = Some o →
  arrays σ !! gl = Some g →
  model_predict o (X_test self) = (Ok p, o1) →
  test_scores p g = Ok tt →
  model_marginals o1 (X_train self) = (Ok a, o2) →
  model_marginals o2 (X_test self) = (Ok b, o3) →
  score_and_plot gl false (σ, self)
  = (Ok tt,
     (store_model lm o1
        (log_all [EvPredict lm (X_test self); EvTestScores p g] σ), self)) ∧
  score_and_plot gl true (σ, self)
  = (calibration_plots a b g,
     (store_model lm o3
        (log_all [EvPredict lm (X_test self); EvTestScores p g;
                  EvMarginals lm (X_train self); EvMarginals lm (X_test self);
                  EvCalibrationPlots a b g] σ), self)).
Proof.
  intros Hmodel Ho Hg Hpred Hscore Hm1 Hm2.
  set (σ1 := store_model lm o1 (log (EvPredict lm (X_test self)) σ)).
  set (σ2 := log (EvTestScores p g) σ1).
  assert (call_predict (Some lm) (X_test self) σ = (Ok p, σ1)) as Hp.
  { unfold call_predict. rewrite (call_model_run _ _ lm o) by done.
    by rewrite Hpred. }
  assert (call_test_scores p g σ1 = (Ok tt, σ2)) as Hts.
  { unfold call_test_scores, bind, modify, lift_result. by rewrite Hscore. }
  assert (∀ sp, score_world self gl sp σ
    = (if sp : bool then
         a <- call_marginals (model self) (X_train self) ;;
         b <- call_marginals (model self) (X_test self) ;;
         g <- deref_array gl ;;
         call_calibration_plots a b g
       else ret tt) σ2) as Hhead.
  { intros sp. unfold score_world. rewrite Hmodel.
    erewrite bind_ok; [|exact Hp].
    erewrite bind_ok; [|unfold deref_array; cbn; by rewrite Hg].
    erewrite bind_ok; [|exact Hts]. reflexivity. }
  split.
  - rewrite score_and_plot_in_world, in_world_run, Hhead. cbn [fst snd].
    unfold ret. cbn. do 3 f_equal.
    unfold σ2, σ1, log, store_model, log_all. cbn. by rewrite <-(assoc_L (++)).
  - rewrite score_and_plot_in_world, in_world_run, Hhead. rewrite Hmodel.
    set (σ3 := store_model lm o2 (log (EvMarginals lm (X_train self)) σ2)).
    set (σ4 := store_model lm o3 (log (EvMarginals lm (X_test self)) σ3)).
    assert (call_marginals (Some lm) (X_train self) σ2 = (Ok a, σ3)) as Ha.
    { unfold call_marginals. rewrite (call_model_run _ _ lm o1).
      - by rewrite Hm1.
      - cbn. by rewrite lookup_insert_eq. }
    assert (call_marginals (Some lm) (X_test self) σ3 = (Ok b, σ4)) as Hb.
    { unfold call_marginals. rewrite (call_model_run _ _ lm o2).
      - by rewrite Hm2.
      - cbn. by rewrite lookup_insert_eq. }
    erewrite bind_ok; [|exact Ha]. erewrite bind_ok; [|exact Hb].
    erewrite bind_ok; [|unfold deref_array; cbn; by rewrite Hg].
    unfold call_calibration_plots, bind, modify, lift_result. cbn [fst snd].
    do 2 f_equal.
    unfold σ4, σ3, σ2, σ1, log, store_model, log_all. cbn.
    rewrite !insert_insert_eq. by rewrite <-!(assoc_L (++)).
Qed.

(** X19: when the featurizer's [fit_transform] raises, the constructor of
    [TrainingSet] raises the same exception and no training set exists; by
    then every labeling function has been applied to every candidate, and the
    featurizer keeps whatever state the failed call left it in. *)
Theorem TrainingSet_init_featurizer_failure lfs (l : loc) cs σ (fz : loc) o e o' :
  cand_lists σ !! l = Some cs →
  featurizers σ !! fz = Some o →
  fz_fit_transform o cs = (Raise e, o') →
  TrainingSet_init l lfs (Some fz) σ
  = (Raise e,
     store_featurizer fz o'
       (log_all (labelling_events (length cs) (length lfs) ++
                 [EvPrint "Featurizing..."; EvFitTransform fz cs]) σ)).
Proof.
  intros Hl Hfz Hfit. unfold TrainingSet_init.
  erewrite bind_raise; [reflexivity|].
  rewrite (transform_run_featurizer lfs l cs σ true fz o) by done.
  by rewrite Hfit.
Qed.

(** ** From construction to the first calls *)

(** X21: the first [test] on a newly constructed learner always enters
    [transform], exactly once, whatever its arguments and whether it returns
    or raises. *)
Theorem first_test_always_transforms (c : learner_class) (ts : TrainingSet)
    (mdl : option loc) self (tc gl : loc) (sp : bool) σ :
  Learner_init c ts mdl = Ok self →
  transform_runs (trace (Learner_test tc gl sp (σ, self)).2.1)
  = S (transform_runs (trace σ)).
Proof.
  intros Hinit.
  apply Learner_init_dims in Hinit as (_ & _ & _ & _ & _ & _ & _ & _ & _ & _ & HX).
  assert (cache_miss tc gl (σ, self) = (Ok true, (σ, self))) as Hmiss.
  { unfold cache_miss. erewrite bind_ok; [|reflexivity]. cbn [snd].
    by rewrite HX. }
  rewrite (test_after_miss _ _ _ _ Hmiss). unfold bind.
  pose proof (refresh_cache_effect tc gl (σ, self)) as (_ & _ & Hruns).
  cbn zeta in Hruns. cbn [fst] in Hruns.
  destruct (refresh_cache tc gl (σ, self)) as [[[]|e] sa]; [|done].
  pose proof (score_and_plot_quiet gl sp sa) as [_ [_ Hruns2]].
  cbn [snd] in Hruns. congruence.
Qed.

(** X22: the initial weights fit the model input.  On a joint learner whose
    [n_train], [m] and [f] are the dimensions of its [L_train] and [F_train]
    (as [__init__] sets them), whenever [train] reaches [model.train], the
    matrix it passes has [m + f] columns, the vector [w0] it passes has one
    entry per column, and the matrix is what [X_train] then holds.  The matrix
    has [n_train] rows, except over no candidates ([n_train = 0]), where it
    has the rows of [F_train], however many. *)
Theorem Learner_train_weights_fit_columns (lf_w0 feat_w0 : Scalar) (hp : Hyper)
    σ self (l : loc) X (tm : option (list Scalar)) (w0 : list Scalar) hp' :
  cls self = JointLearner →
  (n_train self, lr_m self) = shape (L_train self) →
  lr_f self = (shape (F_train self)).2 →
  trace (Learner_train lf_w0 feat_w0 hp (σ, self)).2.1
    = trace σ ++ [EvTrain l X tm w0 hp'] →
  shape X = (if decide (n_train self = 0) then (shape (F_train self)).1
             else n_train self,
             lr_m self + lr_f self) ∧
  length w0 = (shape X).2 ∧
  X_train (Learner_train lf_w0 feat_w0 hp (σ, self)).2.2 = Some X.
Proof.
  intros Hcls Hshape Hf. rewrite Learner_train_run, Hcls. cbn [set_model_X].
  assert (∀ t (ev : event), t ≠ t ++ [ev]) as Hgrow.
  { intros t ev Heq. apply (f_equal length) in Heq.
    rewrite length_app in Heq. cbn in Heq. lia. }
  assert (∀ X0, shape X0 = (if decide (n_train self = 0)
                            then (shape (F_train self)).1 else n_train self,
                            lr_m self + lr_f self) →
    trace (let run := call_train (model self) X0 None
                        (replicate (lr_m self) lf_w0 ++
                         replicate (lr_f self) feat_w0) hp σ in
           (match run.1 with Ok _ => Ok tt | Raise e => Raise e end,
            (run.2, set_X_train (Some X0) self))).2.1
      = trace σ ++ [EvTrain l X tm w0 hp'] →
    shape X = (if decide (n_train self = 0) then (shape (F_train self)).1
               else n_train self, lr_m self + lr_f self) ∧
    length w0 = (shape X).2 ∧
    X_train (let run := call_train (model self) X0 None
                          (replicate (lr_m self) lf_w0 ++
                           replicate (lr_f self) feat_w0) hp σ in
             (match run.1 with Ok _ => Ok tt | Raise e => Raise e end,
              (run.2, set_X_train (Some X0) self))).2.2 = Some X) as Hcall.
  { intros X0 HX0. cbn zeta. cbn [fst snd]. unfold call_train, call_model.
    destruct (model self) as [lm|]; [|intros Ht; by destruct (Hgrow _ _ Ht)].
    destruct (models σ !! lm) as [o|]; [|intros Ht; by destruct (Hgrow _ _ Ht)].
    destruct (model_train o _ None _ hp) as [r o']. cbn.
    intros Ht. apply app_inv_head in Ht. injection Ht as <- <- <- <- <-.
    split; [exact HX0|]. rewrite HX0. cbn.
    by rewrite length_app, !length_replicate. }
  assert (n_train self = (shape (L_train self)).1) as Hn
    by (by rewrite <-Hshape).
  assert (lr_m self = (shape (L_train self)).2) as Hm
    by (by rewrite <-Hshape).
  unfold Learner_set_model_X, hstack_csc.
  destruct (decide ((shape (L_train self)).1 = (shape (F_train self)).1))
    as [Hrows|Hrows].
  { apply Hcall. cbn. rewrite <-Hm, <-Hf, <-Hn.
    destruct (decide (n_train self = 0)); [|done]. f_equal. congruence. }
  destruct (decide ((shape (L_train self)).1 = 0)) as [Hnone|Hsome].
  { apply Hcall. cbn. rewrite <-Hm, <-Hf.
    by rewrite decide_True by congruence. }
  cbn. intros Ht. by destruct (Hgrow _ _ Ht).
Qed.

End Properties.

(** * The statements at work in the concrete setting *)

Import Toy.

Lemma apply_lfs_label_matrix_witness :
  ∃ X σ', TrainingSet_apply_lfs (C:=toy) toy_lfs 0 world0 = (Ok X, σ') ∧
          fmt X = CSR ∧ dt X = Float64 ∧ shape X = (3, 2) ∧
          entry X 1 0 = Some (-1)%Z.
Proof.
  destruct (apply_lfs_label_matrix (C:=toy) toy_lfs 0 [10; 11; 12] world0 eq_refl)
    as (X & σ' & Hrun & Hfmt & Hdt & Hshape & _ & _ & Hentry & _).
  exists X, σ'. repeat split; try done.
  exact (Hentry 1 0 11 lf_even eq_refl eq_refl).
Defined.

(** C6 as stated fails on the element type: the label matrix of the concrete
    setting is not an int8 matrix. *)
Lemma apply_lfs_not_int8 :
  ¬ ∃ X σ', TrainingSet_apply_lfs (C:=toy) toy_lfs 0 world0 = (Ok X, σ') ∧
            dt X = Int8.
Proof.
  intros (X & σ' & Hrun & Hdt).
  rewrite (apply_lfs_run (C:=toy) toy_lfs 0 [10; 11; 12] world0 eq_refl) in Hrun.
  injection Hrun as <- _. discriminate Hdt.
Qed.

Lemma transform_spec_witness :
  (TrainingSet_transform (C:=toy) toy_lfs None 1 false world0).1
    = Ok (label_matrix (C:=toy) toy_lfs [10; 11], None) ∧
  (TrainingSet_transform (C:=toy) toy_lfs (Some 0) 1 false world0).1
    = Ok (label_matrix (C:=toy) toy_lfs [10; 11], Some (toy_features [10; 11])) ∧
  trace (TrainingSet_transform (C:=toy) toy_lfs (Some 0) 1 true world0).2
    = labelling_events (C:=toy) 2 2 ++
      [EvPrint (C:=toy) "Featurizing..."; EvFitTransform (C:=toy) 0 [10; 11]].
Proof.
  destruct (transform_spec (C:=toy) toy_lfs 1 [10; 11] world0 false eq_refl)
    as [Hbare Hfz].
  destruct (transform_spec (C:=toy) toy_lfs 1 [10; 11] world0 true eq_refl)
    as [_ Hfit].
  split; [by rewrite Hbare|]. split.
  - by rewrite (Hfz 0 0 eq_refl).
  - by rewrite (Hfit 0 0 eq_refl).
Defined.

Lemma TrainingSet_init_eager_witness :
  built = (Ok ts0,
           store_featurizer (C:=toy) 0 1
             (log_all (C:=toy) (labelling_events (C:=toy) 3 2 ++
                       [EvPrint (C:=toy) "Featurizing...";
                        EvFitTransform (C:=toy) 0 [10; 11; 12]]) world0)).
Proof.
  destruct (TrainingSet_init_eager (C:=toy) toy_lfs 0 [10; 11; 12] world0 (Some 0)
              eq_refl) as (_ & _ & Hfz).
  exact (Hfz 0 0 (toy_features [10; 11; 12]) 1 eq_refl eq_refl).
Defined.

Lemma Learner_init_without_featurizer_witness :
  ∃ ts σ', built_bare = (Ok ts, σ') ∧
    Learner_init (C:=toy) JointLearner ts (Some 0) = Raise AttributeError ∧
    Learner_init (C:=toy) PipelinedLearner ts (Some 0) = Raise AttributeError.
Proof.
  exists (MkTrainingSet (C:=toy) 0 None toy_lfs (label_matrix (C:=toy) toy_lfs [10; 11; 12]) None),
         (log_all (C:=toy) (labelling_events (C:=toy) 3 2) world0).
  assert (built_bare
          = (Ok (MkTrainingSet (C:=toy) 0 None toy_lfs
                   (label_matrix (C:=toy) toy_lfs [10; 11; 12]) None),
             log_all (labelling_events (C:=toy) 3 2) world0)) as Hbuilt by reflexivity.
  split; [exact Hbuilt|]. split.
  - exact (proj2 (Learner_init_without_featurizer (C:=toy) toy_lfs 0 world0 _ _
                    JointLearner (Some 0) Hbuilt)).
  - exact (proj2 (Learner_init_without_featurizer (C:=toy) toy_lfs 0 world0 _ _
                    PipelinedLearner (Some 0) Hbuilt)).
Defined.

Lemma Learner_train_joint_witness :
  let X := hstack_of (C:=toy) (label_matrix (C:=toy) toy_lfs [10; 11; 12])
             (toy_features [10; 11; 12]) in
  Learner_train (C:=toy) 5%Z 0%Z 7 (world1, learner0 JointLearner)
  = (Ok tt,
     (store_model (C:=toy) 0 (ToyModel (Some [5; 5; 0; 0]%Z) 1)
        (log (C:=toy) (EvTrain 0 X None [5; 5; 0; 0]%Z 7) world1),
      set_X_train (Some X) (learner0 JointLearner))) ∧
  X_train (Learner_train (C:=toy) 5%Z 0%Z 7
             (world1, learner0 JointLearner)).2.2
  = Some (SpMatrix CSC Float64 (3, 4)
            [[1; 0; 10; 1]; [-1; 1; 11; 1]; [1; 1; 12; 1]]%Z).
Proof.
  assert (models world1 !! 0 = Some (ToyModel None 0)) as Hmodel
    by (vm_compute; reflexivity).
  destruct (Learner_train_joint (C:=toy) world1 (learner0 JointLearner) 0
              (ToyModel None 0) 5%Z 0%Z 7 eq_refl eq_refl Hmodel eq_refl)
    as (_ & _ & Hrun & HX & _).
  split; [exact Hrun|exact HX].
Defined.

Lemma PipelinedLearner_train_two_stage_witness :
  ∃ σ' self',
    PipelinedLearner_train (C:=toy) 0%Z 1%Z 7 (world1, learner0 PipelinedLearner)
      = (Ok tt, (σ', self')) ∧
    trace σ' = trace world1 ++
      [EvTrain (C:=toy) 1 (label_matrix (C:=toy) toy_lfs [10; 11; 12]) None [1; 1]%Z 7;
       EvMarginals (C:=toy) 1 (Some (label_matrix (C:=toy) toy_lfs [10; 11; 12]));
       EvTrain (C:=toy) 0 (tocsc (toy_features [10; 11; 12])) (Some [0; 0; 0]%Z)
         [0; 0]%Z 7] ∧
    PipelinedLearner_lf_weights (σ', self') = (Ok [1; 1]%Z, (σ', self')) ∧
    PipelinedLearner_feat_weights (σ', self') = (Ok [0; 0]%Z, (σ', self')).
Proof.
  assert (models world1 !! 0 = Some (ToyModel None 0)) as Hmodel
    by (vm_compute; reflexivity).
  destruct (PipelinedLearner_train_two_stage (C:=toy) world1
              (learner0 PipelinedLearner) 0 (ToyModel None 0) 0%Z 1%Z 7
              tt (ToyModel (Some [1; 1]%Z) 1) [0; 0; 0]%Z
              (ToyModel (Some [1; 1]%Z) 1)
              eq_refl eq_refl Hmodel eq_refl eq_refl)
    as (σ' & self' & Hrun & _ & Htrace & _ & _ & _ & _ & Hlf & Hfeat).
  exists σ', self'. split; [exact Hrun|]. split; [|split].
  - rewrite Htrace. reflexivity.
  - exact Hlf.
  - exact Hfeat.
Defined.

Lemma joint_weights_split_witness :
  Learner_lf_weights (C:=toy) trained = (Ok [5; 5]%Z, trained) ∧
  Learner_feat_weights (C:=toy) trained = (Ok [0; 0]%Z, trained).
Proof.
  assert (models trained.1 !! 0 = Some (ToyModel (Some [5; 5; 0; 0]%Z) 1))
    as Hmodel by (vm_compute; reflexivity).
  destruct (joint_weights_split (C:=toy) trained.1 trained.2 0
              (ToyModel (Some [5; 5; 0; 0]%Z) 1) [5; 5; 0; 0]%Z
              eq_refl Hmodel eq_refl eq_refl)
    as (lw & fw & Hlf & Hfeat & -> & _ & -> & _).
  split; [exact Hlf|exact Hfeat].
Defined.



Lemma test_frame_witness :
  let s' := (Learner_test (C:=toy) 0 0 true tested).2 in
  same_outside_cache tested.2 s'.2 ∧ s'.2 = tested.2.
Proof.
  assert (Learner_test (C:=toy) 0 0 true tested
          = (Ok tt, (Learner_test (C:=toy) 0 0 true tested).2)) as Hrun
    by (vm_compute; reflexivity).
  destruct (test_frame (C:=toy) tested 0 0 true _ _ Hrun) as (Hframe & Hkept & _).
  split; [exact Hframe|]. apply Hkept. vm_compute. discriminate.
Defined.

(** * The further properties at work, where collaborators can fail *)

Import Picky.

Lemma test_misses_in_place_changes_witness :
  let s := (set_data (C:=picky) (<[0 := [13]]> (cand_lists pk_tested.1))
              (<[0 := [-1; -1; -1]%Z]> (arrays pk_tested.1)) pk_tested.1,
            pk_tested.2) in
  Learner_test (C:=picky) 0 0 false s = score_and_plot 0 false s ∧
  (Learner_test (C:=picky) 0 0 false s).2.2 = pk_tested.2.
Proof.
  assert ((cache_miss (C:=picky) 0 0 pk_trained).1 = Ok true) as Hmiss
    by (vm_compute; reflexivity).
  assert (Learner_test (C:=picky) 0 0 false pk_trained
          = (Ok tt, (pk_tested.1, pk_tested.2))) as Hrun
    by (vm_compute; reflexivity).
  destruct (test_misses_in_place_changes (C:=picky) pk_trained 0 0 false
              pk_tested.1 pk_tested.2 Hmiss Hrun
              (<[0 := [13]]> (cand_lists pk_tested.1))
              (<[0 := [-1; -1; -1]%Z]> (arrays pk_tested.1)) false
              ltac:(rewrite lookup_insert_eq; eauto)
              ltac:(rewrite lookup_insert_eq; eauto))
    as (Hhit & Hself & _).
  split; [exact Hhit|exact Hself].
Defined.

Lemma test_failed_refresh_keeps_old_X_test_witness :
  let s' := (Learner_test (C:=picky) 2 0 false pk_tested).2 in
  (Learner_test (C:=picky) 2 0 false pk_tested).1 = Raise ExternalError ∧
  X_test s'.2 = X_test pk_tested.2 ∧
  Learner_test (C:=picky) 2 0 false s' = score_and_plot 0 false s'.
Proof.
  assert (∃ X, X_test pk_tested.2 = Some X) as [X HX]
    by (vm_compute; eauto).
  assert ((cache_miss (C:=picky) 2 0 (pk_tested.1, pk_tested.2)).1 = Ok true)
    as Hmiss by (vm_compute; reflexivity).
  assert (refresh_cache (C:=picky) 2 0 (pk_tested.1, pk_tested.2)
          = (Raise ExternalError,
             ((refresh_cache (C:=picky) 2 0 pk_tested).2.1,
              (refresh_cache (C:=picky) 2 0 pk_tested).2.2))) as Hrefresh
    by (vm_compute; reflexivity).
  assert (cand_lists pk_tested.1 !! 2 = Some [13]) as Hcs
    by (vm_compute; reflexivity).
  assert (arrays pk_tested.1 !! 0 = Some [1; -1; 1]%Z) as Hg
    by (vm_compute; reflexivity).
  destruct (test_failed_refresh_keeps_old_X_test (C:=picky) 2 0 false
              pk_tested.1 pk_tested.2 X ExternalError _ _ [13] [1; -1; 1]%Z
              HX Hmiss Hrefresh Hcs Hg)
    as (Hrun & _ & _ & HX' & Hagain).
  assert (Learner_test (C:=picky) 2 0 false pk_tested
          = Learner_test (C:=picky) 2 0 false (pk_tested.1, pk_tested.2))
    as Heta by (by destruct pk_tested).
  cbn zeta. rewrite Heta, Hrun. cbn [fst snd].
  split; [reflexivity|]. split; [by rewrite HX', HX|]. apply Hagain.
Defined.

Lemma test_gold_length_mismatch_raises_witness :
  ∃ e, Learner_test (C:=picky) 0 1 false (pk_tested.1, pk_tested.2)
       = (Raise e, (pk_tested.1, pk_tested.2)).
Proof.
  assert (∃ X, X_test pk_tested.2 = Some X) as [X HX]
    by (vm_compute; eauto).
  refine (test_gold_length_mismatch_raises (C:=picky) pk_tested.1 pk_tested.2
            0 1 0 0 false X [10; 11; 12] [1; -1]%Z [1; -1; 1]%Z
            HX _ _ _ _ _ _ _ _ _);
    try (vm_compute; reflexivity); vm_compute; discriminate.
Defined.

Lemma test_single_gold_label_is_broadcast_witness :
  Learner_test (C:=picky) 0 2 false (pk_tested_ones.1, pk_tested_ones.2)
  = score_and_plot 2 false (pk_tested_ones.1, pk_tested_ones.2).
Proof.
  assert (∃ X, X_test pk_tested_ones.2 = Some X) as [X HX]
    by (vm_compute; eauto).
  refine (proj1 (test_single_gold_label_is_broadcast (C:=picky)
                   pk_tested_ones.1 pk_tested_ones.2 0 2 0 3 false X
                   [10; 11; 12] 1%Z [1; 1; 1]%Z HX _ _ _ _ _ _) _);
    try (vm_compute; reflexivity).
  intros y Hy.
  repeat (apply elem_of_cons in Hy as [->|Hy]; [reflexivity|]).
  by apply elem_of_nil in Hy.
Defined.

Lemma Learner_train_without_model_witness :
  (Learner_train (C:=picky) 5%Z 0%Z 7 (pk_world, pk_learner JointLearner None)).1
  = Raise AttributeError.
Proof.
  by rewrite (Learner_train_without_model (C:=picky) 5%Z 0%Z 7 pk_world
                (pk_learner JointLearner None) eq_refl eq_refl eq_refl).
Defined.

Lemma Learner_train_row_mismatch_witness :
  Learner_train (C:=picky) 5%Z 0%Z 7 (pk_world, pk_learner_short)
  = (Raise ValueError, (pk_world, pk_learner_short)) ∧
  (Learner_train (C:=picky) 5%Z 0%Z 7 (pk_world, pk_learner_empty)).1 = Ok tt ∧
  X_train (Learner_train (C:=picky) 5%Z 0%Z 7 (pk_world, pk_learner_empty)).2.2
  = Some (SpMatrix CSC Float64 (2, 4) [[0; 0; 10; 1]; [0; 0; 11; 1]]%Z).
Proof.
  assert ((shape (L_train pk_learner_short)).1
          ≠ (shape (F_train pk_learner_short)).1) as Hshort
    by (vm_compute; discriminate).
  assert ((shape (L_train pk_learner_empty)).1
          ≠ (shape (F_train pk_learner_empty)).1) as Hempty
    by (vm_compute; discriminate).
  destruct (Learner_train_row_mismatch (C:=picky) 5%Z 0%Z 7 pk_world
              pk_learner_short eq_refl Hshort) as [Hraise _].
  destruct (Learner_train_row_mismatch (C:=picky) 5%Z 0%Z 7 pk_world
              pk_learner_empty eq_refl Hempty) as [_ Hunder].
  destruct (Hunder eq_refl) as (Hrun & HX & _).
  split; [apply Hraise; vm_compute; discriminate|]. split.
  - rewrite Hrun. vm_compute. reflexivity.
  - exact HX.
Defined.

Lemma Learner_train_frame_witness :
  agree_outside_X_train pk_trained.2 (pk_learner JointLearner (Some 0)) ∧
  trace pk_trained.1
  = [EvTrain (C:=picky) 0
       (hstack_of (C:=picky) pk_L (toy_features [10; 11; 12])) None
       [5; 5; 0; 0]%Z 7].
Proof.
  destruct (Learner_train_frame (C:=picky) 5%Z 0%Z 7 pk_world
              (pk_learner JointLearner (Some 0))) as [Hagree _].
  split; [exact Hagree|]. vm_compute. reflexivity.
Defined.

Lemma PipelinedLearner_train_stage1_failure_witness :
  ∃ σ',
    PipelinedLearner_train (C:=picky) 0%Z 1%Z 0
      (pk_world, pk_learner PipelinedLearner (Some 0))
    = (Raise ExternalError,
       (σ', set_training_model (Some 6) (pk_learner PipelinedLearner (Some 0)))) ∧
    models σ' !! 0 = Some (ToyModel None 0).
Proof.
  destruct (PipelinedLearner_train_stage1_failure (C:=picky) 0%Z 1%Z 0 pk_world
              (pk_learner PipelinedLearner (Some 0)) ExternalError
              (ToyModel None 0) eq_refl)
    as (σ' & Hrun & _ & _ & Hkept & _).
  exists σ'. split; [exact Hrun|]. apply Hkept. vm_compute. reflexivity.
Defined.

Lemma joint_weights_short_vector_witness :
  Learner_lf_weights (C:=picky) (pk_world, pk_learner JointLearner (Some 5))
  = (Ok [7]%Z, (pk_world, pk_learner JointLearner (Some 5))) ∧
  Learner_feat_weights (C:=picky) (pk_world, pk_learner JointLearner (Some 5))
  = (Ok [], (pk_world, pk_learner JointLearner (Some 5))).
Proof.
  apply (joint_weights_short_vector (C:=picky) pk_world
           (pk_learner JointLearner (Some 5)) 5 (ToyModel (Some [7]%Z) 1)
           [7]%Z eq_refl);
    [vm_compute; reflexivity|reflexivity|vm_compute; lia].
Defined.

Lemma pipelined_lf_weights_before_train_witness :
  PipelinedLearner_lf_weights (C:=picky)
    (pk_world, pk_learner PipelinedLearner (Some 0))
  = (Raise AttributeError, (pk_world, pk_learner PipelinedLearner (Some 0))).
Proof.
  exact (proj1 (pipelined_lf_weights_before_train (C:=picky) pk_ts (Some 0)
                  (pk_learner PipelinedLearner (Some 0)) pk_world (λ w, w)
                  eq_refl)).
Defined.

Lemma lf_accs_follows_class_witness :
  Learner_lf_accs (C:=picky) (λ w, w)
    (pk_world, pk_learner JointLearner (Some 5))
  = (Ok [7]%Z, (pk_world, pk_learner JointLearner (Some 5))) ∧
  Learner_lf_accs (C:=picky) (λ w, w)
    (pk_world, set_training_model (Some 5) (pk_learner PipelinedLearner (Some 0)))
  = (Ok [7]%Z,
     (pk_world, set_training_model (Some 5) (pk_learner PipelinedLearner (Some 0)))).
Proof.
  assert (models pk_world !! 5 = Some (ToyModel (Some [7]%Z) 1)) as Ho
    by (vm_compute; reflexivity).
  split.
  - exact (proj1 (lf_accs_follows_class (C:=picky) (λ w, w) pk_world
                    (pk_learner JointLearner (Some 5)) 5 _ [7]%Z Ho eq_refl)
             eq_refl eq_refl).
  - exact (proj2 (lf_accs_follows_class (C:=picky) (λ w, w) pk_world
                    (set_training_model (Some 5)
                       (pk_learner PipelinedLearner (Some 0)))
                    5 _ [7]%Z Ho eq_refl)
             eq_refl eq_refl).
Defined.

Lemma refresh_cache_result_witness :
  X_test (refresh_cache (C:=picky) 1 1 (pk_trained.1, pk_trained.2)).2.2
  = Some (hstack_of (C:=picky) (label_matrix (C:=picky) pk_lfs [10; 11])
            (toy_features [10; 11])).
Proof.
  rewrite (refresh_cache_result (C:=picky) 1 1 pk_trained.1 pk_trained.2
             [10; 11] 0 1 (toy_features [10; 11]) 2
             ltac:(vm_compute; reflexivity) eq_refl
             ltac:(vm_compute; reflexivity) eq_refl).
  reflexivity.
Defined.

Lemma apply_lfs_nothing_to_label_witness :
  TrainingSet_apply_lfs (C:=picky) pk_lfs 3 pk_world
  = (Ok (SpMatrix CSR Float64 (0, 2) []), pk_world).
Proof.
  exact (apply_lfs_nothing_to_label (C:=picky) pk_lfs 3 [] pk_world
           eq_refl (or_introl eq_refl)).
Defined.

Lemma score_and_plot_calls_witness :
  (score_and_plot (C:=picky) 0 true (pk_tested.1, pk_tested.2)).1 = Ok tt ∧
  trace (score_and_plot (C:=picky) 0 false (pk_tested.1, pk_tested.2)).2.1
  = trace pk_tested.1 ++
    [EvPredict (C:=picky) 0 (X_test pk_tested.2);
     EvTestScores (C:=picky) [1; 1; 1]%Z [1; -1; 1]%Z].
Proof.
  destruct (score_and_plot_calls (C:=picky) 0 pk_tested.1 pk_tested.2 0
              (ToyModel (Some [5; 5; 0; 0]%Z) 1) [1; -1; 1]%Z
              [1; 1; 1]%Z (ToyModel (Some [5; 5; 0; 0]%Z) 1)
              [0; 0; 0]%Z (ToyModel (Some [5; 5; 0; 0]%Z) 1)
              [0; 0; 0]%Z (ToyModel (Some [5; 5; 0; 0]%Z) 1)
              eq_refl ltac:(vm_compute; reflexivity)
              ltac:(vm_compute; reflexivity) ltac:(vm_compute; reflexivity)
              eq_refl ltac:(vm_compute; reflexivity)
              ltac:(vm_compute; reflexivity))
    as [Hplain Hplots].
  split; [by rewrite Hplots|by rewrite Hplain].
Defined.

Lemma TrainingSet_init_featurizer_failure_witness :
  (TrainingSet_init (C:=picky) 3 pk_lfs (Some 0) pk_world).1
  = Raise ExternalError.
Proof.
  by rewrite (TrainingSet_init_featurizer_failure (C:=picky) pk_lfs 3 []
                pk_world 0 1 ExternalError 2 eq_refl eq_refl eq_refl).
Defined.

Lemma built_learner_dims_witness :
  L_train (pk_learner JointLearner (Some 0))
  = SpMatrix CSR Float64 (3, 2) [[1; 0]; [-1; 1]; [1; 1]]%Z ∧
  n_train (pk_learner JointLearner (Some 0)) = 3 ∧
  lr_m (pk_learner JointLearner (Some 0)) = 2.
Proof.
  destruct (built_learner_dims (C:=picky) pk_lfs 0 [10; 11; 12] (Some 0)
              pk_world pk_ts
              (TrainingSet_init (C:=picky) 0 pk_lfs (Some 0) pk_world).2
              JointLearner (Some 0) (pk_learner JointLearner (Some 0))
              eq_refl ltac:(vm_compute; reflexivity) eq_refl)
    as (HL & _ & Hn & Hm).
  split; [by rewrite HL|]. split; [exact Hn|exact Hm].
Defined.

Lemma first_test_always_transforms_witness :
  transform_runs
    (trace (Learner_test (C:=picky) 2 4 true
              (pk_world, pk_learner JointLearner None)).2.1)
  = 1.
Proof.
  exact (first_test_always_transforms (C:=picky) JointLearner pk_ts None
           (pk_learner JointLearner None) 2 4 true pk_world eq_refl).
Defined.

Lemma Learner_train_weights_fit_columns_witness :
  ∃ X, X_train pk_trained.2 = Some X ∧ shape X = (3, 4).
Proof.
  eexists.
  destruct (Learner_train_weights_fit_columns (C:=picky) 5%Z 0%Z 7 pk_world
              (pk_learner JointLearner (Some 0)) 0
              (hstack_of (C:=picky) pk_L (toy_features [10; 11; 12])) None
              [5; 5; 0; 0]%Z 7 eq_refl eq_refl eq_refl
              ltac:(vm_compute; reflexivity))
    as (Hshape & _ & HX).
  split; [exact HX|exact Hshape].
Defined.
